(** * df2redis replication test scripts: a shallow embedding

    The two Python scripts under [scripts/] drive a source store
    (Dragonfly) and a target store (Redis) and compare what both hold:

    - [scripts/test_rdb_phase_sync.py]  (module [RdbPhaseSync])
    - [scripts/test_stream_replication.py]  (module [StreamReplication])

    Modelling choices, shared by both modules (module [Py]):

    - A call of a Python function either returns, raises an [Exception]
      subclass, is cut by [KeyboardInterrupt], or leaves through
      [sys.exit]: the type [completion].
    - A redis-py client is a record of reply oracles, one per method the
      scripts call.  A reply is a value or a raised [Exception]; it is a
      function of the method's arguments, which is the "unchanged store"
      reading of a single comparison pass.
    - Every store call is logged: a computation is a trace of events
      paired with its completion (a writer monad).  What is printed is not
      modelled, apart from the result summary of the RDB script;
      [time.sleep] leaves no event, and [KeyboardInterrupt] is delivered
      at the blocking [input()] prompts only.
    - Redis hashes are [gmap string string], sets [gset string], sorted-set
      scores IEEE doubles ([PrimFloat]) compared with [==]. *)

From Stdlib Require Import ZArith String Ascii List DecimalString Floats Uint63.
From Stdlib Require Import DecimalNat DecimalFacts.
From stdpp Require Import base gmap strings list.

Open Scope string_scope.
Open Scope list_scope.
Open Scope nat_scope.

(** ** Python values, exceptions and the trace monad *)

Module Py.

(** Exception classes the scripts tell apart ([redis.*] or builtin). *)
Inductive exn_class : Set :=
| ResponseError
| AuthenticationError
| ConnectionError
| TimeoutError
| ZeroDivisionError
| EOFError
| OtherError.

Global Instance exn_class_eq_dec : EqDecision exn_class.
Proof. solve_decision. Defined.

(** An exception object: its class and [str(e)]. *)
Record exn : Set := Exn { exn_cls : exn_class; exn_str : string }.

(** How a call ends. [Raised] carries subclasses of [Exception] only;
    [KeyboardInterrupt] and [SystemExit] derive from [BaseException] and are
    not caught by [except Exception]. *)
Inductive completion (A : Type) : Type :=
| Return (a : A)
| Raised (e : exn)
| KeyboardInterrupt
| SysExit (code : Z).
Arguments Return {A} a.
Arguments Raised {A} e.
Arguments KeyboardInterrupt {A}.
Arguments SysExit {A} code.

(** What a store answers to one command. *)
Inductive reply (A : Type) : Type :=
| Ok (a : A)
| Err (e : exn).
Arguments Ok {A} a.
Arguments Err {A} e.

Definition of_reply {A} (r : reply A) : completion A :=
  match r with
  | Ok a => Return a
  | Err e => Raised e
  end.

(** [float(n)] for a non-negative machine-size integer. *)
Definition py_float (n : nat) : float :=
  PrimFloat.of_uint63 (Uint63.of_Z (Z.of_nat n)).

(** [str(n)] / [f"{n}"] for a natural number. *)
Definition str (n : nat) : string := NilZero.string_of_uint (Nat.to_uint n).

(** The same for an integer too large to count in unary (a Unix time). *)
Definition str_N (n : N) : string := NilZero.string_of_uint (N.to_uint n).

(** [f"{n:03d}"]: decimal, left-padded with zeros to three characters. *)
Definition fmt_03d (n : nat) : string :=
  let s := str n in
  match String.length s with
  | 1 => "00" +:+ s
  | 2 => "0" +:+ s
  | _ => s
  end.

(** [s.lower()] on the ASCII letters. *)
Definition lower_ascii (c : ascii) : ascii :=
  let n := nat_of_ascii c in
  if (65 <=? n) && (n <=? 90) then ascii_of_nat (n + 32) else c.

Fixpoint lower (s : string) : string :=
  match s with
  | EmptyString => EmptyString
  | String c s' => String (lower_ascii c) (lower s')
  end.

(** [sub in s] for strings. *)
Fixpoint contains (sub s : string) : bool :=
  String.prefix sub s ||
  match s with
  | EmptyString => false
  | String _ s' => contains sub s'
  end.

(** Redis commands as the scripts issue them through redis-py. *)
Inductive command : Type :=
| PING
| KEYS (pattern : string)
| DEL (keys : list string)
| EXISTS (key : string)
| TYPE (key : string)
| GET (key : string)
| SET (key value : string) (ex : option Z)
| HGETALL (key : string)
| HSET (key : string) (mapping : list (string * string))
| LRANGE (key : string) (start stop : Z)
| LPUSH (key : string) (values : list string)
| SMEMBERS (key : string)
| SADD (key : string) (members : list string)
| ZRANGE (key : string) (start stop : Z) (withscores : bool)
| ZADD (key : string) (mapping : list (string * float))
| XINFO_STREAM (key : string)
| XRANGE (key : string)
| XADD (key : string) (fields : list (string * string)) (id : string)
       (maxlen : option Z) (approximate : bool)
| XTRIM (key : string) (maxlen : Z) (approximate : bool)
| EXECUTE_COMMAND (args : list string).

Inductive side : Set := Source | Target.

(** The RDB script's result summary (lines 372-378): total, synced,
    failed, and the data loss rate in percent. *)
Record summary : Set := Summary {
  sum_total : nat;
  sum_success : nat;
  sum_fail : nat;
  sum_loss_rate : float
}.

Inductive event : Type :=
| Call (s : side) (c : command)
| Input
| Results (r : summary).

(** A computation: the events it caused, and how it ended. *)
Definition M (A : Type) : Type := (list event * completion A)%type.

Definition ret {A} (a : A) : M A := ([], Return a).

Definition bind {A B} (m : M A) (f : A -> M B) : M B :=
  match m with
  | (tr, Return a) => let '(tr', c) := f a in (tr ++ tr', c)
  | (tr, Raised e) => (tr, Raised e)
  | (tr, KeyboardInterrupt) => (tr, KeyboardInterrupt)
  | (tr, SysExit n) => (tr, SysExit n)
  end.

Definition sys_exit {A} (code : Z) : M A := ([], SysExit code).

(** A step that touches no store: no event. *)
Definition lift {A} (c : completion A) : M A := ([], c).

(** One store call: logged, then answered by the store. *)
Definition call {A} (s : side) (c : command) (r : reply A) : M A :=
  ([Call s c], of_reply r).

(** [try: body  except Exception as e: handler e] *)
Definition try_except {A} (body : M A) (handler : exn -> M A) : M A :=
  match body with
  | (tr, Raised e) => let '(tr', c) := handler e in (tr ++ tr', c)
  | other => other
  end.

(** [try: body  except cls as e: handler e] for one exception class. *)
Definition try_except_cls {A} (cls : exn_class) (body : M A)
    (handler : exn -> M A) : M A :=
  match body with
  | (tr, Raised e) =>
      if decide (exn_cls e = cls)
      then let '(tr', c) := handler e in (tr ++ tr', c)
      else (tr, Raised e)
  | other => other
  end.

(** [try: body  except: handler], the bare clause, which also catches
    [KeyboardInterrupt] and [SystemExit]. *)
Definition try_except_all {A} (body : M A) (handler : M A) : M A :=
  match body with
  | (tr, Return a) => (tr, Return a)
  | (tr, _) => let '(tr', c) := handler in (tr ++ tr', c)
  end.

(** [try: body  except KeyboardInterrupt: on_interrupt
    except Exception as e: on_exception e], the shape of both scripts'
    outermost handler. *)
Definition try_except_interrupt {A} (body : M A) (on_interrupt : M A)
    (on_exception : exn -> M A) : M A :=
  match body with
  | (tr, KeyboardInterrupt) => let '(tr', c) := on_interrupt in (tr ++ tr', c)
  | (tr, Raised e) => let '(tr', c) := on_exception e in (tr ++ tr', c)
  | other => other
  end.

(** The exit status of the interpreter once the program text has run:
    [sys.exit(n)] gives [n], falling off the end 0, and an exception that
    nothing caught 1. *)
Definition process_status (c : completion unit) : Z :=
  match c with
  | Return _ => 0
  | SysExit code => code
  | Raised _ => 1
  | KeyboardInterrupt => 1
  end.

(** [for x in xs: acc = body acc x] *)
Fixpoint for_each {A S} (body : S -> A -> M S) (xs : list A) (acc : S) : M S :=
  match xs with
  | [] => ret acc
  | x :: xs' => bind (body acc x) (for_each body xs')
  end.

End Py.

Export Py.

(** stdpp's monad notation: [x ← m; k], ['(a, b) ← m; k] and [m;; k]. *)
Global Instance M_ret : MRet M := @Py.ret.
Global Instance M_bind : MBind M := fun A B f m => Py.bind m f.

(** [m] returns or raises an [Exception]: it is not interrupted and
    does not leave through [sys.exit]. *)
Definition plain {A} (m : M A) : Prop :=
  match snd m with
  | Return _ | Raised _ => True
  | _ => False
  end.

(** [m] returns. *)
Definition returns {A} (m : M A) : Prop := exists tr a, m = (tr, Return a).

(** [m], run after the events [pre], ends in a trace and a completion
    that satisfy [P]. *)
Definition holds {A} (P : list event -> completion A -> Prop)
    (pre : list event) (m : M A) : Prop :=
  P (pre ++ fst m) (snd m).

(** ** The redis-py client *)

Module Redis.

(** A stream entry as [xrange] returns it: [(id, {field: value})]. *)
Definition entry : Type := string * gmap string string.

(** The fields of [xinfo_stream]'s answer that the scripts read. *)
Record stream_info : Type := StreamInfo {
  info_length : Z;
  info_first_entry : option entry;
  info_last_entry : option entry
}.

(** A server, seen through the methods the scripts call.  With
    [decode_responses=True] every name and value is a [str]. *)
Record server : Type := Server {
  r_ping : reply bool;
  r_keys : string -> reply (list string);
  r_delete : list string -> reply Z;
  r_exists : string -> reply Z;
  r_type : string -> reply string;
  r_get : string -> reply (option string);
  r_set : string -> string -> option Z -> reply bool;
  r_hgetall : string -> reply (gmap string string);
  r_hset : string -> list (string * string) -> reply Z;
  r_lrange : string -> Z -> Z -> reply (list string);
  r_lpush : string -> list string -> reply Z;
  r_smembers : string -> reply (gset string);
  r_sadd : string -> list string -> reply Z;
  r_zrange : string -> Z -> Z -> bool -> reply (list (string * float));
  r_zadd : string -> list (string * float) -> reply Z;
  r_xinfo_stream : string -> reply stream_info;
  r_xrange : string -> reply (list entry);
  r_xadd : string -> list (string * string) -> string -> option Z -> bool
           -> reply string;
  r_xtrim : string -> Z -> bool -> reply Z;
  r_execute_command : list string -> reply unit
}.

(** A [redis.Redis] object: which store it talks to, and the store. *)
Record client : Type := Client { cl_side : side; cl_server : server }.

(** The methods: each call is logged under the client's side. *)
Definition ping (r : client) : M bool :=
  call (cl_side r) PING (r_ping (cl_server r)).
Definition keys (r : client) (pattern : string) : M (list string) :=
  call (cl_side r) (KEYS pattern) (r_keys (cl_server r) pattern).
Definition delete (r : client) (ks : list string) : M Z :=
  call (cl_side r) (DEL ks) (r_delete (cl_server r) ks).
Definition exists_ (r : client) (key : string) : M Z :=
  call (cl_side r) (EXISTS key) (r_exists (cl_server r) key).
Definition type_ (r : client) (key : string) : M string :=
  call (cl_side r) (TYPE key) (r_type (cl_server r) key).
Definition get (r : client) (key : string) : M (option string) :=
  call (cl_side r) (GET key) (r_get (cl_server r) key).
Definition set_ (r : client) (key value : string) (ex : option Z) : M bool :=
  call (cl_side r) (SET key value ex) (r_set (cl_server r) key value ex).
Definition hgetall (r : client) (key : string) : M (gmap string string) :=
  call (cl_side r) (HGETALL key) (r_hgetall (cl_server r) key).
Definition hset (r : client) (key : string) (mapping : list (string * string))
  : M Z :=
  call (cl_side r) (HSET key mapping) (r_hset (cl_server r) key mapping).
Definition lrange (r : client) (key : string) (start stop : Z)
  : M (list string) :=
  call (cl_side r) (LRANGE key start stop)
       (r_lrange (cl_server r) key start stop).
Definition lpush (r : client) (key : string) (values : list string) : M Z :=
  call (cl_side r) (LPUSH key values) (r_lpush (cl_server r) key values).
Definition smembers (r : client) (key : string) : M (gset string) :=
  call (cl_side r) (SMEMBERS key) (r_smembers (cl_server r) key).
Definition sadd (r : client) (key : string) (members : list string) : M Z :=
  call (cl_side r) (SADD key members) (r_sadd (cl_server r) key members).
Definition zrange (r : client) (key : string) (start stop : Z)
    (withscores : bool) : M (list (string * float)) :=
  call (cl_side r) (ZRANGE key start stop withscores)
       (r_zrange (cl_server r) key start stop withscores).
Definition zadd (r : client) (key : string) (mapping : list (string * float))
  : M Z :=
  call (cl_side r) (ZADD key mapping) (r_zadd (cl_server r) key mapping).
Definition xinfo_stream (r : client) (key : string) : M stream_info :=
  call (cl_side r) (XINFO_STREAM key) (r_xinfo_stream (cl_server r) key).
Definition xrange (r : client) (key : string) : M (list entry) :=
  call (cl_side r) (XRANGE key) (r_xrange (cl_server r) key).
Definition xadd (r : client) (key : string) (fields : list (string * string))
    (id : string) (maxlen : option Z) (approximate : bool) : M string :=
  call (cl_side r) (XADD key fields id maxlen approximate)
       (r_xadd (cl_server r) key fields id maxlen approximate).
Definition xtrim (r : client) (key : string) (maxlen : Z) (approximate : bool)
  : M Z :=
  call (cl_side r) (XTRIM key maxlen approximate)
       (r_xtrim (cl_server r) key maxlen approximate).
Definition execute_command (r : client) (args : list string) : M unit :=
  call (cl_side r) (EXECUTE_COMMAND args) (r_execute_command (cl_server r) args).

(** [a == b] on [zrange(..., withscores=True)] answers: member names as
    strings, scores as IEEE doubles. *)
Fixpoint zset_eqb (a b : list (string * float)) : bool :=
  match a, b with
  | [], [] => true
  | (m1, s1) :: a', (m2, s2) :: b' =>
      bool_decide (m1 = m2) && PrimFloat.eqb s1 s2 && zset_eqb a' b'
  | _, _ => false
  end.

End Redis.

(** ** scripts/test_rdb_phase_sync.py *)

Module RdbPhaseSync.
Import Redis.

Definition TEST_PREFIX : string := "rdb_phase_test:".
Definition TEST_KEYS_COUNT : nat := 20.

(** An element of [test_keys]: [(key, key_type, expected_value)]. *)
Definition test_key : Type := string * string * option string.

(** What the operator does at an [input()] prompt: type a line, close
    the terminal ([EOFError]), or press Ctrl-C ([KeyboardInterrupt]). *)
Inductive at_prompt : Set :=
| Typed (line : string)
| EndOfFile
| CtrlC.

(** What the script reads from the outside world.  [config] is whatever
    [yaml.safe_load] returned; taking the two addresses out of it (lines
    320-331) is an oracle that may raise ([KeyError], [ValueError]). *)
Record env (config : Type) : Type := Env {
  env_argv : list string;
  env_path_exists : string -> bool;
  env_safe_load : string -> reply config;
  env_running_df2redis_config : option string;
  env_endpoints : config -> reply (string * string);
  env_source : server;
  env_target : server;
  env_time : nat -> N;
  env_input : nat -> at_prompt
}.
Arguments env_argv {config} e.
Arguments env_path_exists {config} e.
Arguments env_safe_load {config} e.
Arguments env_running_df2redis_config {config} e.
Arguments env_endpoints {config} e.
Arguments env_source {config} e.
Arguments env_target {config} e.
Arguments env_time {config} e.
Arguments env_input {config} e.

Section Script.
Context {config : Type}.
Variable e : env config.

(** [load_config], lines 71-105. *)
Definition load_config (config_path : string) : M config :=
  if env_path_exists e config_path then
    try_except (lift (of_reply (env_safe_load e config_path)))
               (fun _ => sys_exit 1%Z)
  else
    match env_running_df2redis_config e with
    | Some detected_config =>
        if negb (String.eqb detected_config "")
           && env_path_exists e detected_config
        then try_except (lift (of_reply (env_safe_load e detected_config)))
                        (fun _ => sys_exit 1%Z)
        else sys_exit 1%Z
    | None => sys_exit 1%Z
    end.

(** [connect_redis], lines 107-129: which server answers at the
    configured address is the environment's; the three [except] clauses
    differ in the message they print only. *)
Definition connect_redis (s : side) : M client :=
  let r := Client s (match s with
                     | Source => env_source e
                     | Target => env_target e
                     end) in
  try_except (ping r;; mret r)
    (fun ex => match exn_cls ex with
               | AuthenticationError => sys_exit 1%Z
               | ConnectionError => sys_exit 1%Z
               | _ => sys_exit 1%Z
               end).

(** [clean_test_keys], lines 131-141. *)
Definition clean_test_keys (r : client) : M unit :=
  try_except
    (ks ← keys r (TEST_PREFIX +:+ "*");
     match ks with
     | [] => mret tt
     | _ => delete r ks;; mret tt
     end)
    (fun _ => mret tt).

(** [input(prompt)]: the [n]-th prompt of the run. *)
Definition input (n : nat) : M string :=
  ([Input],
   match env_input e n with
   | Typed line => Return line
   | EndOfFile => Raised (Exn EOFError "EOF when reading a line")
   | CtrlC => KeyboardInterrupt
   end).

(** [wait_for_user_start], lines 143-155. *)
Definition wait_for_user_start : M unit := input 0;; mret tt.

(** One iteration of the loop of [write_test_data], lines 165-215.  The
    hash's "counter" is the integer [i], which redis-py sends as [str(i)]. *)
Definition write_one (source_r : client) (test_keys : list test_key)
    (i : nat) : M (list test_key) :=
  let key := TEST_PREFIX +:+ "key_" +:+ fmt_03d i in
  let data_type := i mod 6 in
  match data_type with
  | 0 =>
      let value := "test_value_" +:+ str i +:+ "_timestamp_"
                   +:+ str_N (env_time e i) in
      set_ source_r key value (Some 600%Z);;
      mret (test_keys ++ [(key, "string", Some value)])
  | 1 =>
      hset source_r key
        [("field1", "value_" +:+ str i +:+ "_1");
         ("field2", "value_" +:+ str i +:+ "_2");
         ("counter", str i)];;
      mret (test_keys ++ [(key, "hash", None)])
  | 2 =>
      lpush source_r key
        ["item_" +:+ str i +:+ "_1"; "item_" +:+ str i +:+ "_2";
         "item_" +:+ str i +:+ "_3"];;
      mret (test_keys ++ [(key, "list", None)])
  | 3 =>
      sadd source_r key
        ["member_" +:+ str i +:+ "_1"; "member_" +:+ str i +:+ "_2";
         "member_" +:+ str i +:+ "_3"];;
      mret (test_keys ++ [(key, "set", None)])
  | 4 =>
      zadd source_r key
        [("member_" +:+ str i +:+ "_1", py_float (i * 10));
         ("member_" +:+ str i +:+ "_2", py_float (i * 10 + 5));
         ("member_" +:+ str i +:+ "_3", py_float (i * 10 + 10))];;
      mret (test_keys ++ [(key, "zset", None)])
  | _ =>
      let value := "special_测试_" +:+ str i +:+ "_🔥_"
                   +:+ str_N (env_time e i) in
      set_ source_r key value None;;
      mret (test_keys ++ [(key, "string", Some value)])
  end.

(** The write of the [i]-th key is refused: the store call of iteration
    [i] raises. *)
Definition write_fails (source_r : client) (i : nat) : bool :=
  match snd (write_one source_r [] i) with
  | Raised _ => true
  | _ => false
  end.

(** The kind label recorded at each of the six positions of the cycle. *)
Definition cycle : list string :=
  ["string"; "hash"; "list"; "set"; "zset"; "string"].

(** [write_test_data], lines 157-222, for [count] keys ([TEST_KEYS_COUNT]
    in the script). *)
Definition write_test_data (count : nat) (source_r : client)
    : M (bool * list test_key) :=
  try_except
    (test_keys ← for_each (write_one source_r) (seq 0 count) [];
     mret (true, test_keys))
    (fun _ => mret (false, [])).

(** The three running results of [verify_test_data]:
    [(success_count, fail_count, fail_details)]. *)
Definition tally : Type := nat * nat * list string.

(** [fail_count += 1; fail_details.append(detail); continue] *)
Definition failed (t : tally) (detail : string) : tally :=
  let '(success_count, fail_count, fail_details) := t in
  (success_count, fail_count + 1, fail_details ++ [detail]).

(** [success_count += 1] *)
Definition verified (t : tally) : tally :=
  let '(success_count, fail_count, fail_details) := t in
  (success_count + 1, fail_count, fail_details).

(** The type-specific verification, lines 250-298. *)
Definition verify_value (source_r target_r : client) (t : tally)
    (key key_type : string) : M tally :=
  if String.eqb key_type "string" then
    src_val ← get source_r key;
    dst_val ← get target_r key;
    if bool_decide (src_val ≠ dst_val)
    then mret (failed t (key +:+ ": Value mismatch"))
    else mret (verified t)
  else if String.eqb key_type "hash" then
    src_hash ← hgetall source_r key;
    dst_hash ← hgetall target_r key;
    if bool_decide (src_hash ≠ dst_hash)
    then mret (failed t (key +:+ ": Hash mismatch"))
    else mret (verified t)
  else if String.eqb key_type "list" then
    src_list ← lrange source_r key 0 (-1);
    dst_list ← lrange target_r key 0 (-1);
    if bool_decide (src_list ≠ dst_list)
    then mret (failed t (key +:+ ": List mismatch"))
    else mret (verified t)
  else if String.eqb key_type "set" then
    src_set ← smembers source_r key;
    dst_set ← smembers target_r key;
    if bool_decide (src_set ≠ dst_set)
    then mret (failed t (key +:+ ": Set mismatch"))
    else mret (verified t)
  else if String.eqb key_type "zset" then
    src_zset ← zrange source_r key 0 (-1) true;
    dst_zset ← zrange target_r key 0 (-1) true;
    if negb (zset_eqb src_zset dst_zset)
    then mret (failed t (key +:+ ": ZSet mismatch"))
    else mret (verified t)
  else mret (verified t).

(** The body of the loop of [verify_test_data], lines 232-303. *)
Definition verify_one (source_r target_r : client) (t : tally)
    (k : test_key) : M tally :=
  let '(key, key_type, expected_value) := k in
  try_except
    (n ← exists_ target_r key;
     if (n =? 0)%Z then mret (failed t (key +:+ ": Missing in target"))
     else
       src_type ← type_ source_r key;
       dst_type ← type_ target_r key;
       if bool_decide (src_type ≠ dst_type)
       then mret (failed t (key +:+ ": Type mismatch (src=" +:+ src_type
                              +:+ ", dst=" +:+ dst_type +:+ ")"))
       else verify_value source_r target_r t key key_type)
    (fun ex =>
       mret (failed t (key +:+ ": Verification error - " +:+ exn_str ex))).

(** What [fail_details] gains from one record: the detail of its failure,
    if verifying it fails. *)
Definition failure_detail (source_r target_r : client) (k : test_key)
    : option string :=
  match snd (verify_one source_r target_r (0, 0, []) k) with
  | Return (_, _, d :: _) => Some d
  | _ => None
  end.

(** [verify_test_data], lines 224-305. *)
Definition verify_test_data (source_r target_r : client)
    (test_keys : list test_key) : M tally :=
  for_each (verify_one source_r target_r) test_keys (0, 0, []).

(** [fail_count / len(test_keys)], line 377: true division of two
    non-negative integers. *)
Definition true_div (a b : nat) : completion float :=
  match b with
  | 0 => Raised (Exn ZeroDivisionError "division by zero")
  | _ => Return (py_float a / py_float b)%float
  end.

(** The result summary, lines 372-394.  On the success branch the script
    prints the literal "0% data loss". *)
Definition report_results (total success_count fail_count : nat) : M unit :=
  if 0 <? fail_count then
    q ← lift (true_div fail_count total);
    let data_loss_rate := (q * 100)%float in
    ([Results (Summary total success_count fail_count data_loss_rate)],
     Return tt)
  else
    ([Results (Summary total success_count fail_count 0%float)], Return tt).

(** [verify_one]'s completion, moved from the empty tally onto [t]. *)
Definition rebase (t : tally) (c : completion tally) : completion tally :=
  match c with
  | Return (_, _, d :: _) => Return (failed t d)
  | Return (_, _, []) => Return (verified t)
  | other => other
  end.

(** [main] up to the last statement, lines 307-401; the value is the
    [fail_count] that line 404 inspects. *)
Definition main_steps (count : nat) : M nat :=
  let config_path := match env_argv e with
                     | _ :: a :: _ => a
                     | _ => "config.yaml"
                     end in
  cfg ← load_config config_path;
  lift (of_reply (env_endpoints e cfg));;
  source_r ← connect_redis Source;
  target_r ← connect_redis Target;
  clean_test_keys source_r;;
  clean_test_keys target_r;;
  wait_for_user_start;;
  '(success, test_keys) ← write_test_data count source_r;
  if negb success then sys_exit 1%Z
  else
    '(success_count, fail_count, fail_details) ←
       verify_test_data source_r target_r test_keys;
    report_results (List.length test_keys) success_count fail_count;;
    cleanup ← input 1;
    (if String.eqb (lower cleanup) "y"
     then clean_test_keys source_r;; clean_test_keys target_r
     else mret tt);;
    mret fail_count.

(** How [main] can end before its last statement: with the failure count
    of a verification pass over what the generator returned, after printing
    the summary of that pass; with [sys.exit(1)]; or through an exception or
    an interrupt. *)
Definition main_post (count : nat) (tr : list event) (c : completion nat) : Prop :=
  match c with
  | Return fail_count =>
      exists trw test_keys trv success_count fail_details,
        write_test_data count (Client Source (env_source e)) = (trw, Return (true, test_keys))
        /\ verify_test_data (Client Source (env_source e))
                         (Client Target (env_target e)) test_keys =
             (trv, Return (success_count, fail_count, fail_details))
        /\ Results (Summary (List.length test_keys) success_count fail_count
                      (if fail_count =? 0 then 0%float
                       else (py_float fail_count
                             / py_float (List.length test_keys) * 100)%float))
             ∈ tr
  | SysExit code => code = 1%Z
  | _ => True
  end.

(** [main], lines 307-404. *)
Definition main (count : nat) : M unit :=
  fail_count ← main_steps count;
  sys_exit (if fail_count =? 0 then 0%Z else 1%Z).

(** The [__main__] block, lines 406-416. *)
Definition program (count : nat) : M unit :=
  try_except_interrupt (main count) (sys_exit 1%Z) (fun _ => sys_exit 1%Z).

Definition exit_status (count : nat) : Z :=
  process_status (snd (program count)).

End Script.

(** The reads that fetch a value for the type-specific comparison. *)
Definition is_value_query (ev : event) : bool :=
  match ev with
  | Call _ (GET _) | Call _ (HGETALL _) | Call _ (LRANGE _ _ _)
  | Call _ (SMEMBERS _) | Call _ (ZRANGE _ _ _ _) => true
  | _ => false
  end.

(** The [i]-th record of the generator: its key, and the label of
    position [i mod 6] of the cycle. *)
Definition in_slot (i : nat) (k : test_key) : Prop :=
  exists v, k = (TEST_PREFIX +:+ "key_" +:+ fmt_03d i, nth (i mod 6) cycle "", v).

(** Every read [verify_test_data] can issue. *)
Definition is_verification_query (ev : event) : bool :=
  match ev with
  | Call _ (EXISTS _) | Call _ (TYPE _) => true
  | _ => is_value_query ev
  end.

(** When a write is going to be refused, [main] never gets to verify. *)
Definition abort_post (tr : list event) (c : completion nat) : Prop :=
  match c with
  | Return _ => False
  | SysExit code => code = 1%Z
  | _ => True
  end
  /\ Forall (fun ev => is_verification_query ev = false) tr.

(** Two servers answer alike every read that verifying [key] can issue. *)
Definition same_answers (a b : server) (key : string) : Prop :=
  r_exists a key = r_exists b key
  /\ r_type a key = r_type b key
  /\ r_get a key = r_get b key
  /\ r_hgetall a key = r_hgetall b key
  /\ r_lrange a key 0 (-1) = r_lrange b key 0 (-1)
  /\ r_smembers a key = r_smembers b key
  /\ r_zrange a key 0 (-1) true = r_zrange b key 0 (-1) true.

(** The key of a record. *)
Definition key_of (k : test_key) : string := k.1.1.

(** The writes by which the generator seeds the source. *)
Definition is_generator_write (ev : event) : bool :=
  match ev with
  | Call Source (SET _ _ _) | Call Source (HSET _ _) | Call Source (LPUSH _ _)
  | Call Source (SADD _ _) | Call Source (ZADD _ _) => true
  | _ => false
  end.

(** A command that stores data (as opposed to reading or deleting it). *)
Definition stores_data (c : command) : bool :=
  match c with
  | SET _ _ _ | HSET _ _ | LPUSH _ _ | SADD _ _ | ZADD _ _
  | XADD _ _ _ _ _ | XTRIM _ _ _ | EXECUTE_COMMAND _ => true
  | _ => false
  end.

(** The server holds [key] and answers every read about it, with
    scores that are numbers (a NaN is equal to nothing, itself included). *)
Definition answers_cleanly (srv : server) (key : string) : Prop :=
  exists n ty g h l s z,
    r_exists srv key = Ok n /\ n <> 0%Z
    /\ r_type srv key = Ok ty
    /\ r_get srv key = Ok g
    /\ r_hgetall srv key = Ok h
    /\ r_lrange srv key 0 (-1) = Ok l
    /\ r_smembers srv key = Ok s
    /\ r_zrange srv key 0 (-1) true = Ok z
    /\ zset_eqb z z = true.

(** What [main] does around its two working phases: pings, key listing
    and deletion, prompts, and the printed summary. *)
Definition is_housekeeping (ev : event) : bool :=
  match ev with
  | Call _ PING | Call _ (KEYS _) | Call _ (DEL _) | Input | Results _ => true
  | _ => false
  end.

(** A trace in four stretches: housekeeping, the generator's writes, the
    verifier's reads, housekeeping. *)
Definition phased (tr : list event) : Prop :=
  exists before gen ver after,
    tr = before ++ gen ++ ver ++ after
    /\ Forall (fun ev => is_housekeeping ev = true) before
    /\ Forall (fun ev => is_generator_write ev = true) gen
    /\ Forall (fun ev => is_verification_query ev = true) ver
    /\ Forall (fun ev => is_housekeeping ev = true) after.

(** [sys.argv[1] if len(sys.argv) > 1 else "config.yaml"], line 314. *)
Definition config_path (argv : list string) : string :=
  match argv with
  | _ :: a :: _ => a
  | _ => "config.yaml"
  end.

(** What every run of [main] satisfies, however it ends: its calls come
    in phases; it returns or is interrupted only through the two prompts;
    and unless the first prompt is answered it does housekeeping only. *)
Definition run_post {config} (e : env config) (tr : list event)
    (c : completion nat) : Prop :=
  phased tr
  /\ match c with
     | Return _ =>
         exists l0 l1, env_input e 0 = Typed l0 /\ env_input e 1 = Typed l1
     | KeyboardInterrupt => env_input e 0 = CtrlC \/ env_input e 1 = CtrlC
     | SysExit code => code = 1%Z
     | Raised _ => True
     end
  /\ ((forall l, env_input e 0 <> Typed l) ->
      Forall (fun ev => is_housekeeping ev = true) tr).

(** The decimal digits of a key's numeric part, read back as a number. *)
Definition index_of_digits (digits : string) : option nat :=
  match NilZero.uint_of_string digits with
  | Some d => Some (Nat.of_uint d)
  | None => None
  end.

End RdbPhaseSync.

(** ** scripts/test_stream_replication.py *)

Module StreamReplication.
Import Redis.

(** [StreamReplicationTester]: the two connections of [__init__]. *)
Record tester : Type := Tester { source : client; target : client }.

Section Tester.
Variable self : tester.

(** [cleanup], lines 38-55. *)
Definition cleanup : M unit :=
  let test_keys :=
    ["test:stream:basic"; "test:stream:autoid"; "test:stream:nomkstream";
     "test:stream:trim_maxlen"; "test:stream:trim_minid";
     "test:stream:rdb_phase"; "test:stream:stable_phase"] in
  for_each
    (fun _ key =>
       try_except_all
         (delete (source self) [key];; delete (target self) [key];; mret tt)
         (mret tt))
    test_keys tt.

(** The loop over [zip(source_entries, target_entries)], lines 78-88:
    [true] when it leaves through one of its [return False]. *)
Fixpoint entries_differ (pairs : list (entry * entry)) : bool :=
  match pairs with
  | [] => false
  | ((src_id, src_data), (tgt_id, tgt_data)) :: rest =>
      if bool_decide (src_id ≠ tgt_id) then true
      else if bool_decide (src_data ≠ tgt_data) then true
      else entries_differ rest
  end.

(** [compare_streams], lines 57-117. *)
Definition compare_streams (key : string) : M bool :=
  try_except
    (source_info ← xinfo_stream (source self) key;
     target_info ← xinfo_stream (target self) key;
     if bool_decide (info_length source_info ≠ info_length target_info)
     then mret false
     else
       source_entries ← xrange (source self) key;
       target_entries ← xrange (target self) key;
       if bool_decide (List.length source_entries ≠ List.length target_entries)
       then mret false
       else if entries_differ (zip source_entries target_entries)
       then mret false
       else if bool_decide (info_first_entry source_info
                            ≠ info_first_entry target_info)
       then mret false
       else if bool_decide (info_last_entry source_info
                            ≠ info_last_entry target_info)
       then mret false
       else mret true)
    (fun ex =>
       if decide (exn_cls ex = ResponseError) then
         if contains "no such key" (lower (exn_str ex)) then
           try_except_all
             (xinfo_stream (target self) key;; mret false)
             (mret true)
         else mret false
       else mret false).

(** [test_basic_xadd], lines 119-130. *)
Definition test_basic_xadd : M bool :=
  let key := "test:stream:basic" in
  xadd (source self) key [("field1", "value1"); ("field2", "value2")]
       "1-0" None true;;
  xadd (source self) key [("field3", "value3"); ("field4", "value4")]
       "2-0" None true;;
  xadd (source self) key [("field5", "value5")] "3-0" None true;;
  compare_streams key.

(** [test_autoid_xadd], lines 132-145. *)
Definition test_autoid_xadd : M bool :=
  let key := "test:stream:autoid" in
  xadd (source self) key [("auto", "entry1")] "*" None true;;
  xadd (source self) key [("auto", "entry2")] "*" None true;;
  xadd (source self) key [("auto", "entry3")] "*" None true;;
  compare_streams key.

(** [test_trim_maxlen], lines 147-160. *)
Definition test_trim_maxlen : M bool :=
  let key := "test:stream:trim_maxlen" in
  for_each (fun _ i => xadd (source self) key [("seq", str i)] "*" None true;;
                       mret tt)
           (seq 0 100) tt;;
  xtrim (source self) key 50 true;;
  compare_streams key.

(** [test_trim_minid], lines 162-183. *)
Definition test_trim_minid : M bool :=
  let key := "test:stream:trim_minid" in
  for_each (fun ids i =>
              let stream_id := str (i + 1) +:+ "-0" in
              xadd (source self) key [("seq", str i)] stream_id None true;;
              mret (ids ++ [stream_id]))
           (seq 0 10) [];;
  try_except_cls ResponseError
    (execute_command (source self) ["XTRIM"; key; "MINID"; "5-0"];;
     compare_streams key)
    (fun _ => mret true).

(** [test_trim_to_zero], lines 185-197. *)
Definition test_trim_to_zero : M bool :=
  let key := "test:stream:trim_maxlen" in
  xadd (source self) key [("test", "data")] "*" None true;;
  xtrim (source self) key 0 true;;
  compare_streams key.

(** [test_xadd_with_trim], lines 199-209. *)
Definition test_xadd_with_trim : M bool :=
  let key := "test:stream:inline_trim" in
  for_each (fun _ i =>
              xadd (source self) key [("seq", str i)] "*" (Some 10%Z) true;;
              mret tt)
           (seq 0 20) tt;;
  compare_streams key.

(** [run_all_tests], lines 211-255. *)
Definition run_all_tests : M bool :=
  cleanup;;
  let tests :=
    [("Basic XADD", test_basic_xadd);
     ("Auto-ID XADD", test_autoid_xadd);
     ("XTRIM MAXLEN", test_trim_maxlen);
     ("XTRIM MINID", test_trim_minid);
     ("XTRIM to zero", test_trim_to_zero);
     ("XADD with inline trim", test_xadd_with_trim)] in
  results ← for_each
    (fun results '(test_name, test_func) =>
       try_except
         (result ← test_func; mret (results ++ [(test_name, result)]))
         (fun _ => mret (results ++ [(test_name, false)])))
    tests [];
  let passed := List.length (List.filter (fun '(_, result) => result) results) in
  let total := List.length results in
  mret (passed =? total).

(** The [try] statement of [main], lines 274-284, around any body. *)
Definition main_handler (body : M unit) : M unit :=
  try_except_interrupt body (sys_exit 2%Z) (fun _ => sys_exit 3%Z).

(** [main], lines 258-284. *)
Definition main : M unit :=
  main_handler
    (success ← run_all_tests;
     sys_exit (if success : bool then 0%Z else 1%Z)).

Definition exit_status : Z := process_status (snd main).

End Tester.

(** The reads [compare_streams] compares by. *)
Definition is_stream_read (ev : event) : bool :=
  match ev with
  | Call _ (XINFO_STREAM _) | Call _ (XRANGE _) => true
  | _ => false
  end.

(** The server holds no stream at [key]: [XINFO STREAM] is answered with
    the error "no such key", which redis-py raises as [ResponseError]. *)
Definition absent (srv : server) (key : string) : Prop :=
  exists ex, r_xinfo_stream srv key = Err ex
             /\ exn_cls ex = ResponseError
             /\ contains "no such key" (lower (exn_str ex)) = true.

(** The server holds a stream at [key]. *)
Definition present (srv : server) (key : string) : Prop :=
  exists info, r_xinfo_stream srv key = Ok info.

(** What [run_all_tests] records for a test (lines 232-237): its result,
    and [False] when it raised. *)
Definition verdict (test_func : M bool) : bool :=
  match snd test_func with
  | Return result => result
  | _ => false
  end.

(** The exception is the one [compare_streams] takes for a missing
    stream (lines 102-103). *)
Definition is_no_such_key (ex : exn) : bool :=
  bool_decide (exn_cls ex = ResponseError)
  && contains "no such key" (lower (exn_str ex)).

(** A call that leaves the target's data as replication made it: any call
    to the source, and on the target a stream read or a [DEL]. *)
Definition leaves_target_data (ev : event) : bool :=
  match ev with
  | Call Target (XINFO_STREAM _) | Call Target (XRANGE _)
  | Call Target (DEL _) => true
  | Call Target _ => false
  | _ => true
  end.

End StreamReplication.

(** ** Concrete stores and environments *)

Module Examples.
Import Redis.

Definition an_entry : entry := ("1-0", {[ "field1" := "value1" ]}).

(** A server that accepts every command; every key holds a string. *)
Definition healthy : server := {|
  r_ping := Ok true;
  r_keys := fun _ => Ok [];
  r_delete := fun _ => Ok 0%Z;
  r_exists := fun _ => Ok 1%Z;
  r_type := fun _ => Ok "string";
  r_get := fun _ => Ok (Some "v");
  r_set := fun _ _ _ => Ok true;
  r_hgetall := fun _ => Ok {[ "field1" := "value_1" ]};
  r_hset := fun _ _ => Ok 3%Z;
  r_lrange := fun _ _ _ => Ok ["item_3"; "item_2"; "item_1"];
  r_lpush := fun _ _ => Ok 3%Z;
  r_smembers := fun _ => Ok {[ "member_1" ]};
  r_sadd := fun _ _ => Ok 3%Z;
  r_zrange := fun _ _ _ _ => Ok [("member_1", 10%float)];
  r_zadd := fun _ _ => Ok 3%Z;
  r_xinfo_stream := fun _ => Ok (StreamInfo 1 (Some an_entry) (Some an_entry));
  r_xrange := fun _ => Ok [an_entry];
  r_xadd := fun _ _ id _ _ => Ok id;
  r_xtrim := fun _ _ _ => Ok 0%Z;
  r_execute_command := fun _ => Ok tt
|}.

(** [base] with [key] gone: [EXISTS] answers 0 for it. *)
Definition without_key (key : string) (base : server) : server :=
  Server (r_ping base) (r_keys base) (r_delete base)
    (fun k => if String.eqb k key then Ok 0%Z else r_exists base k)
    (r_type base) (r_get base) (r_set base) (r_hgetall base) (r_hset base)
    (r_lrange base) (r_lpush base) (r_smembers base) (r_sadd base)
    (r_zrange base) (r_zadd base) (r_xinfo_stream base) (r_xrange base)
    (r_xadd base) (r_xtrim base) (r_execute_command base).

(** [base] without any stream: [XINFO STREAM] is answered
    [ERR no such key], which redis-py raises as [ResponseError]. *)
Definition without_streams (base : server) : server :=
  Server (r_ping base) (r_keys base) (r_delete base) (r_exists base)
    (r_type base) (r_get base) (r_set base) (r_hgetall base) (r_hset base)
    (r_lrange base) (r_lpush base) (r_smembers base) (r_sadd base)
    (r_zrange base) (r_zadd base)
    (fun _ => Err (Exn ResponseError "no such key"))
    (fun _ => Ok [])
    (r_xadd base) (r_xtrim base) (r_execute_command base).

(** [base] rejecting [SADD] (a full or read-only store). *)
Definition rejecting_sadd (base : server) : server :=
  Server (r_ping base) (r_keys base) (r_delete base) (r_exists base)
    (r_type base) (r_get base) (r_set base) (r_hgetall base) (r_hset base)
    (r_lrange base) (r_lpush base) (r_smembers base)
    (fun _ _ => Err (Exn ResponseError "OOM command not allowed"))
    (r_zrange base) (r_zadd base) (r_xinfo_stream base) (r_xrange base)
    (r_xadd base) (r_xtrim base) (r_execute_command base).

(** [base] on a version that does not know [XTRIM ... MINID]. *)
Definition without_minid (base : server) : server :=
  Server (r_ping base) (r_keys base) (r_delete base) (r_exists base)
    (r_type base) (r_get base) (r_set base) (r_hgetall base) (r_hset base)
    (r_lrange base) (r_lpush base) (r_smembers base) (r_sadd base)
    (r_zrange base) (r_zadd base) (r_xinfo_stream base) (r_xrange base)
    (r_xadd base) (r_xtrim base)
    (fun _ => Err (Exn ResponseError "syntax error")).

(** [base] unreachable: [PING] raises [ConnectionError]. *)
Definition unreachable (base : server) : server :=
  Server (Err (Exn ConnectionError "Connection refused"))
    (r_keys base) (r_delete base) (r_exists base)
    (r_type base) (r_get base) (r_set base) (r_hgetall base) (r_hset base)
    (r_lrange base) (r_lpush base) (r_smembers base) (r_sadd base)
    (r_zrange base) (r_zadd base) (r_xinfo_stream base) (r_xrange base)
    (r_xadd base) (r_xtrim base) (r_execute_command base).

(** A run of the RDB script: the configuration loads, the operator
    presses Enter at both prompts. *)
Definition a_run (src tgt : server) (prompt : nat -> RdbPhaseSync.at_prompt)
    : RdbPhaseSync.env unit := {|
  RdbPhaseSync.env_argv := ["scripts/test_rdb_phase_sync.py"];
  RdbPhaseSync.env_path_exists := fun _ => true;
  RdbPhaseSync.env_safe_load := fun _ => Ok tt;
  RdbPhaseSync.env_running_df2redis_config := None;
  RdbPhaseSync.env_endpoints := fun _ => Ok ("localhost:6380", "localhost:6379");
  RdbPhaseSync.env_source := src;
  RdbPhaseSync.env_target := tgt;
  RdbPhaseSync.env_time := fun _ => 1700000000%N;
  RdbPhaseSync.env_input := prompt
|}.

Definition presses_enter : nat -> RdbPhaseSync.at_prompt :=
  fun _ => RdbPhaseSync.Typed "".
Definition presses_ctrl_c : nat -> RdbPhaseSync.at_prompt :=
  fun _ => RdbPhaseSync.CtrlC.

(** The run of the script (20 keys) in which everything goes well. *)
Definition good_run : RdbPhaseSync.env unit := a_run healthy healthy presses_enter.

(** What the generator returns in that run. *)
Definition generated_trace : list event :=
  Eval vm_compute in
    fst (RdbPhaseSync.write_test_data good_run 20 (Client Source healthy)).

Definition generated_keys : list RdbPhaseSync.test_key :=
  Eval vm_compute in
    match snd (RdbPhaseSync.write_test_data good_run 20 (Client Source healthy)) with
    | Return (_, test_keys) => test_keys
    | _ => []
    end.

(** The same run, the replication having dropped the 7th key. *)
Definition lossy_run : RdbPhaseSync.env unit :=
  a_run healthy (without_key "rdb_phase_test:key_006" healthy) presses_enter.

(** A run in which the source cannot be reached. *)
Definition unreachable_run : RdbPhaseSync.env unit :=
  a_run (unreachable healthy) healthy presses_enter.

(** A run the operator interrupts at the first prompt. *)
Definition interrupted_run : RdbPhaseSync.env unit :=
  a_run healthy healthy presses_ctrl_c.

(** A run in which the source refuses [SADD] (first at the 4th key). *)
Definition refused_run : RdbPhaseSync.env unit :=
  a_run (rejecting_sadd healthy) healthy presses_enter.

(** A stream tester whose target has lost every stream. *)
Definition lost_streams : StreamReplication.tester :=
  StreamReplication.Tester (Client Source healthy)
                           (Client Target (without_streams healthy)).

(** A stream tester whose source does not know [XTRIM ... MINID]. *)
Definition old_source : StreamReplication.tester :=
  StreamReplication.Tester (Client Source (without_minid healthy))
                           (Client Target healthy).

(** A stream tester with both stores in step. *)
Definition in_sync : StreamReplication.tester :=
  StreamReplication.Tester (Client Source healthy) (Client Target healthy).

(** A stream tester whose source holds no stream. *)
Definition empty_source : StreamReplication.tester :=
  StreamReplication.Tester (Client Source (without_streams healthy))
                           (Client Target healthy).

(** [base] timing out on [XRANGE]. *)
Definition slow_xrange (base : server) : server :=
  Server (r_ping base) (r_keys base) (r_delete base) (r_exists base)
    (r_type base) (r_get base) (r_set base) (r_hgetall base) (r_hset base)
    (r_lrange base) (r_lpush base) (r_smembers base) (r_sadd base)
    (r_zrange base) (r_zadd base) (r_xinfo_stream base)
    (fun _ => Err (Exn TimeoutError "Timeout reading from socket"))
    (r_xadd base) (r_xtrim base) (r_execute_command base).

(** A stream tester whose target times out on [XRANGE]. *)
Definition slow_target : StreamReplication.tester :=
  StreamReplication.Tester (Client Source healthy)
                           (Client Target (slow_xrange healthy)).

(** [base] dropping the connection on a raw command. *)
Definition dropping_raw (base : server) : server :=
  Server (r_ping base) (r_keys base) (r_delete base) (r_exists base)
    (r_type base) (r_get base) (r_set base) (r_hgetall base) (r_hset base)
    (r_lrange base) (r_lpush base) (r_smembers base) (r_sadd base)
    (r_zrange base) (r_zadd base) (r_xinfo_stream base) (r_xrange base)
    (r_xadd base) (r_xtrim base)
    (fun _ => Err (Exn ConnectionError "Connection reset by peer")).

(** A stream tester whose source drops the connection on [XTRIM ... MINID]. *)
Definition dropped_source : StreamReplication.tester :=
  StreamReplication.Tester (Client Source (dropping_raw healthy))
                           (Client Target healthy).

(** A run in which the terminal is closed at the first prompt. *)
Definition closed_terminal_run : RdbPhaseSync.env unit :=
  a_run healthy healthy (fun _ => RdbPhaseSync.EndOfFile).

(** A run in which the operator starts the test and closes the terminal
    at the last prompt. *)
Definition abandoned_run : RdbPhaseSync.env unit :=
  a_run healthy healthy
    (fun n => match n with
              | 0 => RdbPhaseSync.Typed ""
              | _ => RdbPhaseSync.EndOfFile
              end).

(** A run started where no configuration file is, with no df2redis
    running. *)
Definition unconfigured_run : RdbPhaseSync.env unit := {|
  RdbPhaseSync.env_argv := ["scripts/test_rdb_phase_sync.py"];
  RdbPhaseSync.env_path_exists := fun _ => false;
  RdbPhaseSync.env_safe_load := fun _ => Ok tt;
  RdbPhaseSync.env_running_df2redis_config := None;
  RdbPhaseSync.env_endpoints := fun _ => Ok ("localhost:6380", "localhost:6379");
  RdbPhaseSync.env_source := healthy;
  RdbPhaseSync.env_target := healthy;
  RdbPhaseSync.env_time := fun _ => 1700000000%N;
  RdbPhaseSync.env_input := presses_enter
|}.

End Examples.

(** * Properties *)

(** ** The trace monad *)

Module PyFacts.

Lemma for_each_ext {A S} (f g : S -> A -> M S) (xs : list A) (acc : S) :
  (forall x, x ∈ xs -> forall a, f a x = g a x) ->
  for_each f xs acc = for_each g xs acc.
Proof.
  revert acc. induction xs as [|x xs IH]; intros acc Hfg; [reflexivity|].
  cbn. rewrite (Hfg x) by apply list_elem_of_here.
  destruct (g acc x) as [tr [a| | |]]; cbn; try reflexivity.
  rewrite IH; [reflexivity|].
  intros y Hy. apply Hfg. by apply list_elem_of_further.
Qed.

(** A loop whose body raises at some element, and returns or raises at
    every other, raises. *)
Lemma for_each_raises {A S} (f : S -> A -> M S) (xs : list A) (acc : S) :
  (forall a x, (exists tr s, f a x = (tr, Return s))
               \/ (exists tr e, f a x = (tr, Raised e))) ->
  (exists x, x ∈ xs /\ forall a, exists tr e, f a x = (tr, Raised e)) ->
  exists tr e, for_each f xs acc = (tr, Raised e).
Proof.
  intros Hf. revert acc. induction xs as [|x xs IH]; intros acc [y [Hy Hr]].
  - by apply elem_of_nil in Hy.
  - cbn. destruct (Hf acc x) as [(tr & s & E)|(tr & ex & E)]; rewrite E; cbn.
    + apply elem_of_cons in Hy as [->|Hy].
      * destruct (Hr acc) as (tr' & ex & E'). congruence.
      * destruct (IH s) as (tr' & ex & E'); [by exists y|].
        rewrite E'. eauto.
    + eauto.
Qed.

(** What holds of the events of every iteration holds of the loop's. *)
Lemma for_each_trace {A S} (P : event -> Prop) (f : S -> A -> M S)
    (xs : list A) (acc : S) :
  (forall a x, Forall P (fst (f a x))) ->
  Forall P (fst (for_each f xs acc)).
Proof.
  intros Hf. revert acc. induction xs as [|x xs IH]; intros acc; cbn.
  - constructor.
  - specialize (Hf acc x). destruct (f acc x) as [tr [a| | |]]; cbn in *; try done.
    specialize (IH a). destruct (for_each f xs a) as [tr' c]. cbn in *.
    by apply Forall_app.
Qed.

(** A postcondition of [m ≫= f] is one of [f a] after the events of [m],
    when [m] returns [a], and one of [m]'s own ending otherwise. *)
Lemma holds_bind {A B} (P : list event -> completion B -> Prop) pre
    (m : M A) (f : A -> M B) :
  match m with
  | (tr, Return a) => holds P (pre ++ tr) (f a)
  | (tr, Raised ex) => P (pre ++ tr) (Raised ex)
  | (tr, KeyboardInterrupt) => P (pre ++ tr) KeyboardInterrupt
  | (tr, SysExit code) => P (pre ++ tr) (SysExit code)
  end ->
  holds P pre (m ≫= f).
Proof.
  unfold holds. destruct m as [tr [a| | |]]; cbn; try done.
  destruct (f a) as [tr' c]. cbn. by rewrite app_assoc.
Qed.

Lemma for_each_cons {A S} (f : S -> A -> M S) x xs acc :
  for_each f (x :: xs) acc = f acc x ≫= for_each f xs.
Proof. reflexivity. Qed.

Lemma bind_return {A B} tr (a : A) (f : A -> M B) :
  (tr, Return a) ≫= f = (tr ++ fst (f a), snd (f a)).
Proof. cbn. by destruct (f a). Qed.

Lemma returns_plain {A} (m : M A) : returns m -> plain m.
Proof. by intros (tr & a & ->). Qed.

Lemma plain_call {A} s c (r : reply A) : plain (call s c r).
Proof. by destruct r. Qed.

Lemma plain_bind {A B} (m : M A) (f : A -> M B) :
  plain m -> (forall a, plain (f a)) -> plain (m ≫= f).
Proof.
  unfold plain. destruct m as [tr [a| | |]]; cbn; try done.
  intros _ Hf. specialize (Hf a). by destruct (f a).
Qed.

Lemma returns_bind {A B} (m : M A) (f : A -> M B) :
  returns m -> (forall a, returns (f a)) -> returns (m ≫= f).
Proof.
  intros (tr & a & ->) Hf. destruct (Hf a) as (tr' & b & E).
  cbn. rewrite E. by do 2 eexists.
Qed.

Lemma plain_for_each {A S} (f : S -> A -> M S) xs acc :
  (forall a x, plain (f a x)) -> plain (for_each f xs acc).
Proof.
  intros Hf. revert acc. induction xs as [|x xs IH]; intros acc; [done|].
  cbn [for_each]. apply (plain_bind (f acc x)); auto.
Qed.

Lemma returns_for_each {A S} (f : S -> A -> M S) xs acc :
  (forall a x, returns (f a x)) -> returns (for_each f xs acc).
Proof.
  intros Hf. revert acc. induction xs as [|x xs IH]; intros acc.
  - by exists [], acc.
  - cbn [for_each]. apply (returns_bind (f acc x)); auto.
Qed.

(** [try ... except Exception] around a body that returns or raises,
    with a handler that returns, returns. *)
Lemma returns_try_except {A} (body : M A) handler :
  plain body -> (forall ex, returns (handler ex)) ->
  returns (try_except body handler).
Proof.
  unfold plain. destruct body as [tr [a|ex| |]]; cbn; try done; intros _ Hh.
  - by do 2 eexists.
  - destruct (Hh ex) as (tr' & a & ->). by do 2 eexists.
Qed.

Lemma plain_try_except_cls {A} cls (body : M A) handler :
  plain body -> (forall ex, plain (handler ex)) ->
  plain (try_except_cls cls body handler).
Proof.
  unfold plain. destruct body as [tr [a|ex| |]]; cbn; try done; intros _ Hh.
  destruct (decide _); [|done]. specialize (Hh ex). by destruct (handler ex).
Qed.

(** The bare [except:] with a handler that returns, returns. *)
Lemma returns_try_except_all {A} (body : M A) handler :
  returns handler -> returns (try_except_all body handler).
Proof.
  intros (tr' & a' & ->). destruct body as [tr [a| | |]]; cbn; by do 2 eexists.
Qed.

End PyFacts.

(** ** The RDB phase script *)

Module RdbPhaseSyncFacts.
Import Redis RdbPhaseSync PyFacts.

Local Arguments String.append : simpl never.
Local Arguments String.eqb : simpl never.

Ltac step :=
  match goal with
  | |- context [of_reply ?r] => destruct r eqn:?; cbn
  | |- context [if ?b then _ else _] => destruct b eqn:?; cbn
  end.

Ltac unfold_calls :=
  unfold exists_, type_, get, hgetall, lrange, smembers, zrange, call.

Section Generate.
Context {config : Type}.
Variable e : env config.
Variable source_r : client.

Ltac unfold_writes := unfold set_, hset, lpush, sadd, zadd, call.

(** An iteration either appends the record of its slot or raises; the
    list built so far plays no part in which. *)
Lemma write_one_ends test_keys i :
  (exists tr k, write_one e source_r test_keys i = (tr, Return (test_keys ++ [k]))
                /\ in_slot i k /\ write_fails e source_r i = false)
  \/ (exists tr ex, write_one e source_r test_keys i = (tr, Raised ex)
                    /\ write_fails e source_r i = true).
Proof.
  unfold write_fails, write_one, in_slot.
  pose proof (Nat.mod_upper_bound i 6 ltac:(lia)) as Hlt.
  destruct (i mod 6) as [|[|[|[|[|[|n]]]]]]; [| | | | | |lia].
  all: unfold_writes; cbn; repeat step; eauto 10.
Qed.

Lemma write_one_trace test_keys i :
  Forall (fun ev => is_verification_query ev = false)
         (fst (write_one e source_r test_keys i)).
Proof.
  unfold write_one.
  destruct (i mod 6) as [|[|[|[|[|n]]]]].
  all: unfold_writes; cbn; repeat step; by repeat constructor.
Qed.

(** The loop of the generator, from any start: if it returns, it
    appended the records of the slots it went through, in order. *)
Lemma write_loop n : forall a test_keys tr ks,
  for_each (write_one e source_r) (seq a n) test_keys = (tr, Return ks) ->
  exists rs, ks = test_keys ++ rs /\ Forall2 in_slot (seq a n) rs.
Proof.
  induction n as [|n IH]; intros a test_keys tr ks; cbn.
  - intros [= _ <-]. exists []. rewrite app_nil_r. split; [done|constructor].
  - destruct (write_one_ends test_keys a)
      as [(tr1 & k & E & Hk & _)|(tr1 & ex & E & _)]; rewrite E; cbn; [|done].
    destruct (for_each _ (seq (S a) n) _) as [tr2 c] eqn:E2.
    intros [= _ ->]. destruct (IH _ _ _ _ E2) as (rs & -> & Hrs).
    exists (k :: rs). rewrite <- app_assoc. split; [done|by constructor].
Qed.

(** The generator always returns: its [try] catches every exception. *)
Lemma write_test_data_ends count :
  exists tr r, write_test_data e count source_r = (tr, Return r)
    /\ Forall (fun ev => is_verification_query ev = false) tr.
Proof.
  unfold write_test_data.
  assert (match snd (for_each (write_one e source_r) (seq 0 count) []) with
          | Return _ | Raised _ => True | _ => False end) as Hc.
  { generalize 0, (@nil test_key). induction count as [|n IH]; intros a acc; cbn; [done|].
    destruct (write_one_ends acc a) as [(tr1 & k & E & _)|(tr1 & ex & E & _)];
      rewrite E; cbn; [|done].
    specialize (IH (S a) (acc ++ [k])). by destruct (for_each _ _ _). }
  pose proof (for_each_trace (fun ev => is_verification_query ev = false)
                (write_one e source_r) (seq 0 count) [] write_one_trace) as Ht.
  destruct (for_each _ _ _) as [tr [ks|ex| |]]; cbn in *; try done.
  - do 2 eexists. split; [reflexivity|]. by rewrite app_nil_r.
  - do 2 eexists. split; [reflexivity|]. by rewrite app_nil_r.
Qed.

Lemma in_slot_label i k :
  in_slot i k -> k.1.2 ∈ ["string"; "hash"; "list"; "set"; "zset"].
Proof.
  intros [v ->]. cbn [fst snd].
  pose proof (Nat.mod_upper_bound i 6 ltac:(lia)) as Hlt.
  destruct (i mod 6) as [|[|[|[|[|[|n]]]]]]; [| | | | | |lia];
    apply list_elem_of_In; cbn; auto 10.
Qed.

(** A successful generation returns the records of the slots 0 to
    [count - 1], in order. *)
Lemma write_test_data_slots count tr test_keys :
  write_test_data e count source_r = (tr, Return (true, test_keys)) ->
  Forall2 in_slot (seq 0 count) test_keys.
Proof.
  unfold write_test_data.
  destruct (for_each _ _ _) as [tr0 [ks|ex| |]] eqn:E; cbn; try done.
  intros [= _ <-]. by apply write_loop in E as (rs & -> & Hrs).
Qed.

(** C1, as the code has it.  When the generator succeeds for a count N,
    it returns N records, and record i (for every i < N) carries the key
    of index i and the kind label at position i mod 6 of the cycle
    string, hash, list, set, zset, string: the sixth position is a second
    string (with non-ASCII text), not a stream.  So every record has one of
    the five labels string, hash, list, set, zset, none is a stream, and
    from N = 5 on (N = 20 in the script) each of the five labels occurs. *)
Theorem write_test_data_cycle count tr test_keys :
  write_test_data e count source_r = (tr, Return (true, test_keys)) ->
  List.length test_keys = count
  /\ (forall i, i < count ->
        exists k, test_keys !! i = Some k /\ in_slot i k)
  /\ (forall k, k ∈ test_keys ->
        k.1.2 ∈ ["string"; "hash"; "list"; "set"; "zset"]
        /\ k.1.2 <> "stream")
  /\ (5 <= count ->
      forall lbl, lbl ∈ ["string"; "hash"; "list"; "set"; "zset"] ->
                  exists k, k ∈ test_keys /\ k.1.2 = lbl).
Proof.
  intros Hrs%write_test_data_slots. rename test_keys into rs.
  assert (List.length rs = count) as Hlen.
  { apply Forall2_length in Hrs. by rewrite length_seq in Hrs. }
  assert (forall i, i < count -> exists k, rs !! i = Some k /\ in_slot i k) as Hi.
  { intros i Hlt.
    destruct (Forall2_lookup_l _ _ _ i i Hrs) as (k & Hk & Hs); [|by eauto].
    by apply lookup_seq. }
  split; [done|]. split; [done|]. split.
  - intros k Hk. apply list_elem_of_lookup in Hk as [i Hk].
    destruct (Forall2_lookup_r _ _ _ i k Hrs Hk) as (j & Hj & Hs).
    apply in_slot_label in Hs. split; [done|].
    intros Heq. rewrite Heq in Hs.
    apply list_elem_of_In in Hs. cbn in Hs. intuition discriminate.
  - intros Hc lbl Hl.
    assert (exists j, j < 5 /\ nth (j mod 6) cycle "" = lbl) as (j & Hj & <-).
    { repeat (apply elem_of_cons in Hl as [->|Hl]);
        [exists 0|exists 1|exists 2|exists 3|exists 4|by apply elem_of_nil in Hl];
        (split; [lia|reflexivity]). }
    destruct (Hi j ltac:(lia)) as (k & Hk & [v ->]).
    eexists. split; [by eapply list_elem_of_lookup_2|done].
Qed.

(** If the store refuses the write of any one of the [count] keys,
    [write_test_data] gives up: it returns the failure flag and an empty
    list of records, whatever was written before. *)
Lemma write_test_data_fails_fast count :
  (exists i, i < count /\ write_fails e source_r i = true) ->
  exists tr, write_test_data e count source_r = (tr, Return (false, [])).
Proof.
  intros (i & Hlt & Hf). unfold write_test_data.
  destruct (for_each_raises (write_one e source_r) (seq 0 count) []) as (tr & ex & E).
  - intros a x. destruct (write_one_ends a x)
      as [(tr1 & k & E & _)|(tr1 & ex & E & _)]; eauto.
  - exists i. split; [apply elem_of_seq; lia|].
    intros a. destruct (write_one_ends a i)
      as [(tr1 & k & E & _ & Hnf)|(tr1 & ex & E & _)]; [congruence|eauto].
  - rewrite E. cbn. eauto.
Qed.

End Generate.

Section Stages.
Context {config : Type}.
Variable e : env config.

(** Loading the configuration touches no store; it returns the
    configuration or leaves with [sys.exit(1)]. *)
Lemma load_config_ends config_path :
  (exists cfg, load_config e config_path = ([], Return cfg))
  \/ load_config e config_path = ([], SysExit 1%Z).
Proof.
  unfold load_config, lift.
  destruct (env_path_exists e config_path).
  - destruct (env_safe_load e config_path); cbn; eauto.
  - destruct (env_running_df2redis_config e) as [d|]; [|by right].
    destruct (negb (String.eqb d "") && env_path_exists e d); [|by right].
    destruct (env_safe_load e d); cbn; eauto.
Qed.

(** Connecting pings the server; it returns the client or leaves with
    [sys.exit(1)], whatever the exception was. *)
Lemma connect_redis_ends s :
  connect_redis e s =
    ([Call s PING],
     Return (Client s match s with
                      | Source => env_source e
                      | Target => env_target e
                      end))
  \/ connect_redis e s = ([Call s PING], SysExit 1%Z).
Proof.
  unfold connect_redis, ping, call. cbn.
  destruct s; cbn; step; eauto.
  all: right; by destruct (exn_cls _).
Qed.

(** Cleaning up never fails, and reads no test key. *)
Lemma clean_test_keys_ends r :
  exists tr, clean_test_keys r = (tr, Return tt)
    /\ Forall (fun ev => is_verification_query ev = false) tr.
Proof.
  unfold clean_test_keys, keys, delete, call. cbn. step.
  - destruct a as [|k ks]; cbn; [|step]; eexists; (split; [reflexivity|]);
      by repeat constructor.
  - eexists. split; [reflexivity|]. by repeat constructor.
Qed.

(** [fail_count / len(test_keys)] is evaluated only when [fail_count] is
    positive; a positive count of failures among [total] records leaves
    [total] positive, so the division is defined. *)
Lemma report_results_ends total success_count fail_count :
  fail_count <= total ->
  report_results total success_count fail_count =
    ([Results (Summary total success_count fail_count
                 (if fail_count =? 0 then 0%float
                  else (py_float fail_count / py_float total * 100)%float))],
     Return tt).
Proof.
  intros Hle. unfold report_results, true_div, lift.
  destruct fail_count as [|fc]; [reflexivity|].
  destruct total as [|n]; [lia|reflexivity].
Qed.

(** Waiting for the operator ends as the first prompt does. *)
Lemma wait_for_user_start_ends :
  wait_for_user_start e =
    ([Input],
     match env_input e 0 with
     | Typed _ => Return tt
     | EndOfFile => Raised (Exn EOFError "EOF when reading a line")
     | CtrlC => KeyboardInterrupt
     end).
Proof. unfold wait_for_user_start, input. by destruct (env_input e 0). Qed.

End Stages.

Section Verify.
Variables source_r target_r : client.

Lemma verify_value_rebase t key key_type :
  verify_value source_r target_r t key key_type =
  (fst (verify_value source_r target_r (0, 0, []) key key_type),
   rebase t (snd (verify_value source_r target_r (0, 0, []) key key_type))).
Proof.
  destruct t as [[sc fc] fd]. unfold verify_value. unfold_calls.
  repeat (destruct (String.eqb key_type _); [cbn; repeat step; reflexivity|]).
  reflexivity.
Qed.

Lemma verify_one_rebase t k :
  verify_one source_r target_r t k =
  (fst (verify_one source_r target_r (0, 0, []) k),
   rebase t (snd (verify_one source_r target_r (0, 0, []) k))).
Proof.
  destruct k as [[key key_type] v]. unfold verify_one.
  rewrite (verify_value_rebase t).
  destruct (verify_value source_r target_r (0, 0, []) key key_type) as [tr c].
  destruct t as [[sc fc] fd]. unfold_calls. cbn.
  repeat step; try reflexivity.
  all: destruct c as [[[? ?] [|? ?]]| | |]; reflexivity.
Qed.

(** A value check returns a tally or raises; it never leaves otherwise. *)
Lemma verify_value_ends t key key_type :
  match snd (verify_value source_r target_r t key key_type) with
  | Return t' => t' = verified t \/ exists d, t' = failed t d
  | Raised _ => True
  | _ => False
  end.
Proof.
  unfold verify_value. unfold_calls.
  repeat (destruct (String.eqb key_type _); [cbn; repeat step; eauto|]).
  cbn. eauto.
Qed.

(** Verifying one record always returns, with one more success or one
    more failure. *)
Lemma verify_one_ends t k :
  exists tr t', verify_one source_r target_r t k = (tr, Return t')
    /\ (t' = verified t \/ exists d, t' = failed t d).
Proof.
  destruct k as [[key key_type] v]. unfold verify_one.
  pose proof (verify_value_ends t key key_type) as Hv.
  destruct (verify_value source_r target_r t key key_type) as [tr c].
  unfold_calls. cbn in *.
  destruct c as [t'| | |]; try contradiction.
  all: repeat step; (do 2 eexists; split; [reflexivity|eauto]).
Qed.

(** Its first store call asks the target whether the key exists. *)
Lemma verify_one_asks t k :
  Call (cl_side target_r) (EXISTS (k.1.1)) ∈ fst (verify_one source_r target_r t k).
Proof.
  destruct k as [[key key_type] v]. unfold verify_one.
  destruct (verify_value _ _ _ _ _) as [trv c]. unfold_calls. cbn.
  destruct c; repeat step; apply list_elem_of_here.
Qed.

Lemma verify_one_detail t k :
  exists tr, verify_one source_r target_r t k =
    (tr, Return (match failure_detail source_r target_r k with
                 | Some d => failed t d
                 | None => verified t
                 end))
    /\ Call (cl_side target_r) (EXISTS (k.1.1)) ∈ tr.
Proof.
  rewrite verify_one_rebase. unfold failure_detail.
  destruct (verify_one_ends (0, 0, []) k) as (tr & t' & E & Ht').
  rewrite E. cbn. exists tr. split.
  - destruct Ht' as [->|[d ->]]; reflexivity.
  - pose proof (verify_one_asks (0, 0, []) k) as Hq. by rewrite E in Hq.
Qed.

(** The loop, from any tally: it returns, every record moved exactly one
    counter, and the details of the failed ones were appended in order. *)
Lemma verify_loop test_keys : forall sc fc fd,
  exists tr,
    for_each (verify_one source_r target_r) test_keys (sc, fc, fd) =
      (tr, Return
             (sc + (List.length test_keys
                    - List.length (omap (failure_detail source_r target_r) test_keys)),
              fc + List.length (omap (failure_detail source_r target_r) test_keys),
              fd ++ omap (failure_detail source_r target_r) test_keys))
    /\ List.length (omap (failure_detail source_r target_r) test_keys)
       <= List.length test_keys
    /\ forall k, k ∈ test_keys -> Call (cl_side target_r) (EXISTS (k.1.1)) ∈ tr.
Proof.
  induction test_keys as [|k ks IH]; intros sc fc fd.
  - exists []. cbn. rewrite !Nat.add_0_r, app_nil_r.
    split; [reflexivity|]. split; [lia|]. intros k Hk. by apply elem_of_nil in Hk.
  - destruct (verify_one_detail (sc, fc, fd) k) as (tr1 & E1 & Hq).
    cbn [for_each]. rewrite E1. cbn [bind omap list_omap].
    destruct (failure_detail source_r target_r k) as [d|]; cbn [failed verified].
    + destruct (IH sc (fc + 1) (fd ++ [d])) as (tr2 & E2 & Hle & Hall).
      rewrite E2. exists (tr1 ++ tr2). split; [|split].
      * cbn [List.length]. rewrite <- app_assoc. cbn [app].
        do 2 f_equal. repeat (f_equal; try lia).
      * cbn [List.length]. lia.
      * intros k' [->|Hk']%elem_of_cons; apply elem_of_app; auto.
    + destruct (IH (sc + 1) fc fd) as (tr2 & E2 & Hle & Hall).
      rewrite E2. exists (tr1 ++ tr2). split; [|split].
      * cbn [List.length]. do 2 f_equal. repeat (f_equal; try lia).
      * cbn [List.length]. lia.
      * intros k' [->|Hk']%elem_of_cons; apply elem_of_app; auto.
Qed.

(** A pass returns, and its two counts add up to the number of
    records. *)
Lemma verify_test_data_returns test_keys :
  exists tr success_count fail_count fail_details,
    verify_test_data source_r target_r test_keys =
      (tr, Return (success_count, fail_count, fail_details))
    /\ success_count + fail_count = List.length test_keys.
Proof.
  destruct (verify_loop test_keys 0 0 []) as (tr & E & Hle & _).
  unfold verify_test_data. rewrite E. do 4 eexists.
  split; [reflexivity|]. cbn. lia.
Qed.

(** C4. A verification pass never stops at a failure: for every list of
    test keys it returns, having asked the target about every record; each
    record counts once, as a success or as a failure, so the two counts add
    up to the number of records; and [fail_details] holds exactly one entry
    per failed record, in the order of the input, nothing merged or moved. *)
Theorem verify_test_data_exhaustive test_keys :
  exists tr success_count fail_count fail_details,
    verify_test_data source_r target_r test_keys =
      (tr, Return (success_count, fail_count, fail_details))
    /\ success_count + fail_count = List.length test_keys
    /\ fail_details = omap (failure_detail source_r target_r) test_keys
    /\ List.length fail_details = fail_count
    /\ forall k, k ∈ test_keys -> Call (cl_side target_r) (EXISTS (k.1.1)) ∈ tr.
Proof.
  destruct (verify_loop test_keys 0 0 []) as (tr & E & Hle & Hall).
  unfold verify_test_data. rewrite E. cbn [app Nat.add].
  do 4 eexists. split; [reflexivity|].
  repeat split; [lia|exact Hall].
Qed.

(** The key is absent on the target: one [EXISTS], then "Missing". *)
Lemma verify_one_missing t key key_type v :
  r_exists (cl_server target_r) key = Ok 0%Z ->
  verify_one source_r target_r t (key, key_type, v) =
    ([Call (cl_side target_r) (EXISTS key)],
     Return (failed t (key +:+ ": Missing in target"))).
Proof. intros He. unfold verify_one. unfold_calls. by rewrite He. Qed.

(** The key exists, the two type labels differ: no value is fetched. *)
Lemma verify_one_type_mismatch t key key_type v n a b :
  r_exists (cl_server target_r) key = Ok n -> n <> 0%Z ->
  r_type (cl_server source_r) key = Ok a ->
  r_type (cl_server target_r) key = Ok b ->
  a <> b ->
  verify_one source_r target_r t (key, key_type, v) =
    ([Call (cl_side target_r) (EXISTS key);
      Call (cl_side source_r) (TYPE key);
      Call (cl_side target_r) (TYPE key)],
     Return (failed t (key +:+ ": Type mismatch (src=" +:+ a
                        +:+ ", dst=" +:+ b +:+ ")"))).
Proof.
  intros He Hn Ha Hb Hab. unfold verify_one. unfold_calls.
  rewrite He, Ha, Hb. cbn. apply Z.eqb_neq in Hn. rewrite Hn.
  by rewrite bool_decide_eq_true_2.
Qed.

(** Both checks passed: what remains is the type-specific verification. *)
Lemma verify_one_dispatch t key key_type v n a :
  r_exists (cl_server target_r) key = Ok n -> n <> 0%Z ->
  r_type (cl_server source_r) key = Ok a ->
  r_type (cl_server target_r) key = Ok a ->
  verify_one source_r target_r t (key, key_type, v) =
    try_except
      ([Call (cl_side target_r) (EXISTS key);
        Call (cl_side source_r) (TYPE key);
        Call (cl_side target_r) (TYPE key)]
         ++ fst (verify_value source_r target_r t key key_type),
       snd (verify_value source_r target_r t key key_type))
      (fun ex => mret (failed t (key +:+ ": Verification error - "
                                 +:+ exn_str ex))).
Proof.
  intros He Hn Ha Hb. unfold verify_one. unfold_calls.
  rewrite He, Ha, Hb. cbn. apply Z.eqb_neq in Hn. rewrite Hn.
  rewrite bool_decide_eq_false_2 by (intros H; by apply H).
  by destruct (verify_value _ _ _ _ _) as [tr [| | |]].
Qed.

(** A value is fetched only after the key was found on the target and the
    two type labels were found equal. *)
Lemma verify_one_value_query t key key_type v ev :
  ev ∈ fst (verify_one source_r target_r t (key, key_type, v)) ->
  is_value_query ev = true ->
  exists n a,
    r_exists (cl_server target_r) key = Ok n /\ n <> 0%Z
    /\ r_type (cl_server source_r) key = Ok a
    /\ r_type (cl_server target_r) key = Ok a.
Proof.
  unfold verify_one.
  destruct (verify_value source_r target_r t key key_type) as [trv c].
  unfold_calls. cbn.
  destruct c; repeat step; cbn; intros Hin Hq.
  all: try (repeat (apply elem_of_cons in Hin as [->|Hin]; [discriminate Hq|]);
            by apply elem_of_nil in Hin).
  all: match goal with
       | Hn : (_ =? 0)%Z = false, Hd : bool_decide (_ ≠ _) = false |- _ =>
           apply Z.eqb_neq in Hn; apply bool_decide_eq_false_1 in Hd;
           apply dec_stable in Hd; subst; eauto 10
       end.
Qed.

(** The rule for a record of kind "hash": the two field-to-value maps
    are compared as wholes. *)
Lemma verify_one_hash t key v n a hs hd :
  r_exists (cl_server target_r) key = Ok n -> n <> 0%Z ->
  r_type (cl_server source_r) key = Ok a ->
  r_type (cl_server target_r) key = Ok a ->
  r_hgetall (cl_server source_r) key = Ok hs ->
  r_hgetall (cl_server target_r) key = Ok hd ->
  verify_one source_r target_r t (key, "hash", v) =
    ([Call (cl_side target_r) (EXISTS key);
      Call (cl_side source_r) (TYPE key);
      Call (cl_side target_r) (TYPE key);
      Call (cl_side source_r) (HGETALL key);
      Call (cl_side target_r) (HGETALL key)],
     Return (if decide (hs = hd) then verified t
             else failed t (key +:+ ": Hash mismatch"))).
Proof.
  intros He Hn Ha Hb Hs Hd.
  rewrite (verify_one_dispatch t key "hash" v n a He Hn Ha Hb).
  unfold verify_value.
  replace (String.eqb "hash" "string") with false by reflexivity.
  replace (String.eqb "hash" "hash") with true by reflexivity.
  unfold_calls. rewrite Hs, Hd. cbn.
  destruct (decide (hs = hd)) as [->|Hne].
  - rewrite bool_decide_eq_false_2 by (intros H; by apply H). reflexivity.
  - by rewrite bool_decide_eq_true_2.
Qed.

(** C2. The per-record protocol of the equivalence engine, for every
    record and every pair of stores.  (1) A key that the target reports
    absent is classified Missing at once, whatever the source holds (so in
    particular when the source holds it).  (2) If the key exists and the
    store-reported type labels differ, the record is a Type mismatch and no
    value was fetched.  (3) A value is fetched only when the key exists on
    the target and both type labels are equal.  (4) For a hash the outcome is
    then decided by equality of the whole field-to-value maps: one field
    that differs on the two sides, or is present on one side only, fails
    the record. *)
Theorem verify_one_protocol t key key_type v :
  (r_exists (cl_server target_r) key = Ok 0%Z ->
   verify_one source_r target_r t (key, key_type, v) =
     ([Call (cl_side target_r) (EXISTS key)],
      Return (failed t (key +:+ ": Missing in target"))))
  /\ (forall n a b,
        r_exists (cl_server target_r) key = Ok n -> n <> 0%Z ->
        r_type (cl_server source_r) key = Ok a ->
        r_type (cl_server target_r) key = Ok b ->
        a <> b ->
        verify_one source_r target_r t (key, key_type, v) =
          ([Call (cl_side target_r) (EXISTS key);
            Call (cl_side source_r) (TYPE key);
            Call (cl_side target_r) (TYPE key)],
           Return (failed t (key +:+ ": Type mismatch (src=" +:+ a
                              +:+ ", dst=" +:+ b +:+ ")"))))
  /\ (forall ev,
        ev ∈ fst (verify_one source_r target_r t (key, key_type, v)) ->
        is_value_query ev = true ->
        exists n a,
          r_exists (cl_server target_r) key = Ok n /\ n <> 0%Z
          /\ r_type (cl_server source_r) key = Ok a
          /\ r_type (cl_server target_r) key = Ok a)
  /\ (forall n a hs hd,
        r_exists (cl_server target_r) key = Ok n -> n <> 0%Z ->
        r_type (cl_server source_r) key = Ok a ->
        r_type (cl_server target_r) key = Ok a ->
        r_hgetall (cl_server source_r) key = Ok hs ->
        r_hgetall (cl_server target_r) key = Ok hd ->
        ((forall f, hs !! f = hd !! f) ->
         snd (verify_one source_r target_r t (key, "hash", v))
           = Return (verified t))
        /\ ((exists f, hs !! f <> hd !! f) ->
            snd (verify_one source_r target_r t (key, "hash", v))
              = Return (failed t (key +:+ ": Hash mismatch")))).
Proof.
  split; [apply verify_one_missing|].
  split; [intros; by eapply verify_one_type_mismatch|].
  split; [apply verify_one_value_query|].
  intros n a hs hd He Hn Ha Hb Hs Hd.
  rewrite (verify_one_hash t key v n a hs hd He Hn Ha Hb Hs Hd). cbn.
  split.
  - intros Heq. apply map_eq in Heq. by destruct (decide (hs = hd)).
  - intros [f Hf]. destruct (decide (hs = hd)) as [->|]; [by destruct Hf|done].
Qed.

(** C9. A record whose kind label is none of "string", "hash", "list",
    "set", "zset" (a "stream" record, say) counts as a success as soon as
    the key exists on the target and the two type labels are equal; the
    three store calls made are [EXISTS] and the two [TYPE], no value is
    fetched. *)
Theorem verify_one_unknown_kind t key key_type v n a :
  key_type ∉ ["string"; "hash"; "list"; "set"; "zset"] ->
  r_exists (cl_server target_r) key = Ok n -> n <> 0%Z ->
  r_type (cl_server source_r) key = Ok a ->
  r_type (cl_server target_r) key = Ok a ->
  verify_one source_r target_r t (key, key_type, v) =
    ([Call (cl_side target_r) (EXISTS key);
      Call (cl_side source_r) (TYPE key);
      Call (cl_side target_r) (TYPE key)],
     Return (verified t)).
Proof.
  intros Hk He Hn Ha Hb.
  rewrite (verify_one_dispatch t key key_type v n a He Hn Ha Hb).
  unfold verify_value.
  repeat match goal with
  | |- context [String.eqb key_type ?lbl] =>
      destruct (String.eqb_spec key_type lbl) as [->|_];
      [exfalso; apply Hk; set_solver|]
  end.
  reflexivity.
Qed.

End Verify.

(** Verifying one record reads nothing but the answers to the seven
    queries about its key. *)
Lemma verify_one_same_answers s1 t1 s2 t2 t k :
  same_answers s1 s2 (k.1.1) -> same_answers t1 t2 (k.1.1) ->
  verify_one (Client Source s1) (Client Target t1) t k =
  verify_one (Client Source s2) (Client Target t2) t k.
Proof.
  destruct k as [[key key_type] v]. cbn [fst].
  intros (Se & St & Sg & Sh & Sl & Ss & Sz) (Te & Tt & Tg & Th & Tl & Ts & Tz).
  unfold verify_one, verify_value. unfold_calls. cbn [cl_side cl_server].
  by rewrite St, Sg, Sh, Sl, Ss, Sz, Te, Tt, Tg, Th, Tl, Ts, Tz.
Qed.

(** C8. Two verification passes over the same records, the stores
    answering the second pass as they answered the first, end alike: same
    success count, same failure count, same failure details (and the same
    calls were made). *)
Theorem verify_test_data_idempotent s1 t1 s2 t2 test_keys :
  (forall k, k ∈ test_keys ->
             same_answers s1 s2 (k.1.1) /\ same_answers t1 t2 (k.1.1)) ->
  verify_test_data (Client Source s1) (Client Target t1) test_keys =
  verify_test_data (Client Source s2) (Client Target t2) test_keys.
Proof.
  intros Hsame. unfold verify_test_data. apply for_each_ext.
  intros k Hk t. destruct (Hsame k Hk). by apply verify_one_same_answers.
Qed.

Section Main.
Context {config : Type}.
Variable e : env config.

Let source_r := Client Source (env_source e).
Let target_r := Client Target (env_target e).

Ltac run :=
  cbn [mbind M_bind bind lift of_reply sys_exit mret M_ret ret fst snd app negb].

Lemma main_steps_cases count :
  holds (main_post e count) [] (main_steps e count).
Proof.
  unfold main_steps.
  cbv beta iota zeta; apply holds_bind.
  match goal with |- context [load_config e ?p] =>
    destruct (load_config_ends e p) as [[cfg E]|E]; rewrite E; [|done] end.
  cbv beta iota zeta; apply holds_bind. unfold lift.
  destruct (env_endpoints e cfg) as [eps|ex]; cbn [of_reply]; [|done].
  cbv beta iota zeta; apply holds_bind.
  destruct (connect_redis_ends e Source) as [E1|E1]; rewrite E1; [|done].
  cbv beta iota zeta; apply holds_bind.
  destruct (connect_redis_ends e Target) as [E2|E2]; rewrite E2; [|done].
  cbv beta iota zeta; apply holds_bind.
  destruct (clean_test_keys_ends (Client Source (env_source e))) as (tr1 & E3 & _).
  rewrite E3.
  cbv beta iota zeta; apply holds_bind.
  destruct (clean_test_keys_ends (Client Target (env_target e))) as (tr2 & E4 & _).
  rewrite E4.
  cbv beta iota zeta; apply holds_bind. rewrite wait_for_user_start_ends.
  destruct (env_input e 0); [|done|done].
  cbv beta iota zeta; apply holds_bind.
  destruct (write_test_data_ends e (Client Source (env_source e)) count)
    as (trw & [success test_keys] & Ew & _).
  rewrite Ew. destruct success; cbn [negb]; [|done].
  cbv beta iota zeta; apply holds_bind.
  destruct (verify_test_data_returns (Client Source (env_source e))
              (Client Target (env_target e)) test_keys)
    as (trv & sc & fc & fd & Ev & Hsum).
  rewrite Ev.
  cbv beta iota zeta; apply holds_bind. rewrite report_results_ends by lia.
  cbv beta iota zeta; apply holds_bind. unfold input at 1.
  destruct (env_input e 1) as [answer| |]; [|done|done].
  cbv beta iota zeta; apply holds_bind.
  destruct (String.eqb (lower answer) "y"); unfold holds; cbn.
  all: exists trw, test_keys, trv, sc, fd; (split; [done|]); (split; [done|]).
  all: repeat (rewrite elem_of_cons || rewrite elem_of_app); auto 20.
Qed.

(** The exit status, read off the way [main] ends before its last
    statement. *)
Lemma exit_status_of count :
  exit_status e count =
    match snd (main_steps e count) with
    | Return fail_count => if fail_count =? 0 then 0%Z else 1%Z
    | SysExit code => code
    | Raised _ | KeyboardInterrupt => 1%Z
    end.
Proof.
  unfold exit_status, program, main.
  destruct (main_steps e count) as [tr [fc| | |]]; reflexivity.
Qed.

Lemma main_steps_aborts count :
  (exists i, i < count /\ write_fails e source_r i = true) ->
  holds abort_post [] (main_steps e count).
Proof.
  intros Hfail.
  assert (forall tr c, match c with
                       | Return _ => False
                       | SysExit code => code = 1%Z
                       | _ => True
                       end ->
                       Forall (fun ev => is_verification_query ev = false) tr ->
                       abort_post tr c) as Hpost by (by split).
  unfold main_steps.
  apply holds_bind.
  match goal with |- context [load_config e ?p] =>
    destruct (load_config_ends e p) as [[cfg E]|E]; rewrite E;
      [|by apply Hpost; repeat constructor] end.
  cbv beta iota zeta; apply holds_bind. unfold lift.
  destruct (env_endpoints e cfg) as [eps|ex]; cbn [of_reply];
    [|by apply Hpost; repeat constructor].
  cbv beta iota zeta; apply holds_bind.
  destruct (connect_redis_ends e Source) as [E1|E1]; rewrite E1;
    [|by apply Hpost; repeat constructor].
  cbv beta iota zeta; apply holds_bind.
  destruct (connect_redis_ends e Target) as [E2|E2]; rewrite E2;
    [|by apply Hpost; repeat constructor].
  cbv beta iota zeta; apply holds_bind.
  destruct (clean_test_keys_ends (Client Source (env_source e))) as (tr1 & E3 & Q1).
  rewrite E3.
  cbv beta iota zeta; apply holds_bind.
  destruct (clean_test_keys_ends (Client Target (env_target e))) as (tr2 & E4 & Q2).
  rewrite E4.
  assert (Forall (fun ev => is_verification_query ev = false)
            (((((([] ++ []) ++ []) ++ [Call Source PING]) ++ [Call Target PING])
               ++ tr1) ++ tr2)) as Q.
  { rewrite !Forall_app. repeat split; try done; by repeat constructor. }
  cbv beta iota zeta; apply holds_bind. rewrite wait_for_user_start_ends.
  assert (Forall (fun ev => is_verification_query ev = false) [Input]) as QI
    by (by repeat constructor).
  destruct (env_input e 0); [|by apply Hpost; [|apply Forall_app]..].
  cbv beta iota zeta; apply holds_bind.
  destruct (write_test_data_fails_fast e (Client Source (env_source e)) count Hfail)
    as [trw Ew].
  destruct (write_test_data_ends e (Client Source (env_source e)) count)
    as (trw' & r & Ew' & Qw).
  rewrite Ew in Ew'. injection Ew' as -> <-. rewrite Ew.
  cbv beta iota zeta. cbn [negb]. unfold holds. cbn [sys_exit fst snd].
  apply Hpost; [done|]. rewrite !Forall_app. repeat split; try done.
  all: by repeat constructor.
Qed.

(** C7. If the source store refuses the write of any one key, the
    generator reports failure with an empty list of records, and the caller
    never verifies: [main] does not reach its end, no [EXISTS], [TYPE] or
    value read appears among the calls it made, and the script exits with
    status 1. *)
Theorem generation_fails_fast count :
  (exists i, i < count /\ write_fails e source_r i = true) ->
  (exists tr, write_test_data e count source_r = (tr, Return (false, [])))
  /\ (forall n, snd (main_steps e count) <> Return n)
  /\ Forall (fun ev => is_verification_query ev = false)
            (fst (main_steps e count))
  /\ exit_status e count = 1%Z.
Proof.
  intros Hfail. split; [by apply write_test_data_fails_fast|].
  pose proof (main_steps_aborts count Hfail) as Ha.
  rewrite exit_status_of. unfold holds, abort_post in Ha. cbn [app] in Ha.
  destruct Ha as [Hc Hq].
  destruct (main_steps e count) as [tr [fc|ex| |code]]; cbn in *; by subst.
Qed.

End Main.

(** C6. The loss rate printed with the summary is defined after every
    verification pass: the summary step returns (it cannot raise
    [ZeroDivisionError]).  With no failure the rate is the literal 0 of the
    success branch; with failures it is [fail_count / total * 100] in double
    precision, and the total is then positive.  So an empty list of records
    gives total 0, no failure and rate 0, and whenever the script gets to
    the end of [main] with zero generated records it exits with status 0
    (verdict Pass), having printed that summary; and 1 failure among 20
    records gives 5 (percent). *)
Theorem loss_rate_defined :
  (forall source_r target_r test_keys,
     exists tr success_count fail_count fail_details rate,
       verify_test_data source_r target_r test_keys =
         (tr, Return (success_count, fail_count, fail_details))
       /\ report_results (List.length test_keys) success_count fail_count =
            ([Results (Summary (List.length test_keys) success_count
                         fail_count rate)], Return tt)
       /\ (fail_count = 0 -> rate = 0%float)
       /\ (0 < fail_count ->
           0 < List.length test_keys
           /\ rate = (py_float fail_count
                      / py_float (List.length test_keys) * 100)%float)
       /\ (List.length test_keys = 0 ->
           fail_count = 0 /\ success_count = 0 /\ rate = 0%float)
       /\ (List.length test_keys = 20 -> fail_count = 1 -> rate = 5%float))
  /\ (forall config (e : env config) fail_count,
        snd (main_steps e 0) = Return fail_count ->
        fail_count = 0
        /\ Results (Summary 0 0 0 0%float) ∈ fst (main_steps e 0)
        /\ exit_status e 0 = 0%Z).
Proof.
  split.
  - intros source_r target_r test_keys.
    destruct (verify_test_data_returns source_r target_r test_keys)
      as (tr & sc & fc & fd & Ev & Hsum).
    exists tr, sc, fc, fd. eexists. split; [done|].
    split; [by apply report_results_ends; lia|].
    split; [by intros ->|].
    split; [intros Hpos; split; [lia|]; by destruct fc; [lia|]|].
    split; [intros Hz; assert (fc = 0) as -> by lia; repeat split; lia|].
    intros -> ->. by vm_compute.
  - intros config e fc Hret.
    pose proof (main_steps_cases e 0) as Hm.
    rewrite exit_status_of. unfold holds, main_post in Hm. cbn [app] in Hm.
    rewrite Hret in Hm. rewrite Hret.
    destruct Hm as (trw & ks & trv & sc & fd & Ew & Ev & Hin).
    apply write_test_data_slots, Forall2_length in Ew.
    destruct ks; [|done]. cbn in Ev. injection Ev as <- <- <- <-.
    by repeat split.
Qed.

End RdbPhaseSyncFacts.

(** ** The stream replication script *)

Module StreamReplicationFacts.
Import Redis StreamReplication PyFacts.

Local Arguments String.append : simpl never.

Section Tester.
Variable self : tester.

Ltac unfold_calls := unfold xinfo_stream, xrange, xadd, xtrim, execute_command, call.

(** On this key the stream is gone from both stores: a match, after one
    [XINFO STREAM] to each. *)
Lemma compare_streams_both_absent key :
  absent (cl_server (source self)) key ->
  absent (cl_server (target self)) key ->
  compare_streams self key =
    ([Call (cl_side (source self)) (XINFO_STREAM key);
      Call (cl_side (target self)) (XINFO_STREAM key)],
     Return true).
Proof.
  intros (ex & Es & Hc & Hm) (ex' & Et & _).
  unfold compare_streams. unfold_calls. rewrite Es, Et.
  cbn [mbind M_bind bind of_reply try_except try_except_all app].
  rewrite decide_True by done. rewrite Hm. by rewrite ?Et.
Qed.

(** The source holds the stream and the target does not: the error the
    target raises is taken for the source's, the target is asked again, and
    the comparison returns [True]. *)
Lemma compare_streams_target_absent key :
  present (cl_server (source self)) key ->
  absent (cl_server (target self)) key ->
  compare_streams self key =
    ([Call (cl_side (source self)) (XINFO_STREAM key);
      Call (cl_side (target self)) (XINFO_STREAM key);
      Call (cl_side (target self)) (XINFO_STREAM key)],
     Return true).
Proof.
  intros (info & Es) (ex & Et & Hc & Hm).
  unfold compare_streams. unfold_calls. rewrite Es, Et.
  cbn [mbind M_bind bind of_reply try_except try_except_all app].
  rewrite decide_True by done. rewrite Hm. by rewrite ?Et.
Qed.

(** A comparison always returns its verdict. *)
Lemma compare_streams_returns key : returns (compare_streams self key).
Proof.
  unfold compare_streams. apply returns_try_except.
  - apply plain_bind; [apply plain_call|intros source_info].
    apply plain_bind; [apply plain_call|intros target_info].
    destruct (bool_decide _); [done|].
    apply plain_bind; [apply plain_call|intros source_entries].
    apply plain_bind; [apply plain_call|intros target_entries].
    repeat (destruct (bool_decide _); [done|]).
    destruct (entries_differ _); [done|].
    repeat (destruct (bool_decide _); [done|]). done.
  - intros ex. destruct (decide _); [|by exists [], false].
    destruct (contains _ _); [|by exists [], false].
    apply returns_try_except_all. by exists [], true.
Qed.

(** C3, at the input where the code departs from it.  When the stream
    is absent on both stores the comparison returns [True] (a match), as
    specified.  When the stream is present on the source and absent on
    the target the comparison returns [True] as well, where a non-match is
    specified: the [ResponseError] raised by the target's
    [XINFO STREAM] lands in the handler written for the source's. *)
Theorem compare_streams_on_absent_target key :
  absent (cl_server (target self)) key ->
  (absent (cl_server (source self)) key ->
   snd (compare_streams self key) = Return true)
  /\ (present (cl_server (source self)) key ->
      snd (compare_streams self key) = Return true).
Proof.
  intros Ht. split; intros Hs.
  - by rewrite compare_streams_both_absent.
  - by rewrite compare_streams_target_absent.
Qed.

(** The ten [XADD] of [test_trim_minid], when the source accepts them. *)
Lemma xadd_loop key n : forall a ids,
  (forall i, a <= i < a + n ->
     exists id, r_xadd (cl_server (source self)) key [("seq", str i)]
                  (str (i + 1) +:+ "-0") None true = Ok id) ->
  exists tr ids',
    for_each (fun ids i =>
                let stream_id := str (i + 1) +:+ "-0" in
                xadd (source self) key [("seq", str i)] stream_id None true;;
                mret (ids ++ [stream_id]))
             (seq a n) ids = (tr, Return ids')
    /\ Forall (fun ev => is_stream_read ev = false) tr
    /\ Forall (fun ev => exists c, ev = Call (cl_side (source self)) c) tr.
Proof.
  induction n as [|n IH]; intros a ids Hok.
  - exists [], ids. by repeat split.
  - change (seq a (S n)) with (a :: seq (S a) n). rewrite for_each_cons.
    destruct (Hok a ltac:(lia)) as [id E].
    destruct (IH (S a) (ids ++ [str (a + 1) +:+ "-0"])) as (tr & ids' & E' & Q & Q').
    { intros i Hi. apply Hok. lia. }
    match goal with |- context [?m ≫= _] =>
      assert (m = ([Call (cl_side (source self))
                      (XADD key [("seq", str a)] (str (a + 1) +:+ "-0") None true)],
                   Return (ids ++ [str (a + 1) +:+ "-0"]))) as ->
        by (unfold_calls; by rewrite E)
    end.
    rewrite bind_return, E'.
    do 2 eexists. split; [reflexivity|]. split; constructor; eauto.
Qed.

(** C10. When the source accepts the ten [XADD] and rejects
    [XTRIM key MINID 5-0] with a [ResponseError], [test_trim_minid] returns
    [True]: the test passes, and it compared nothing, having made no call
    to the target and no [XINFO STREAM] or [XRANGE] at all. *)
Theorem test_trim_minid_skips ex :
  (forall i, i < 10 ->
     exists id, r_xadd (cl_server (source self)) "test:stream:trim_minid"
                  [("seq", str i)] (str (i + 1) +:+ "-0") None true = Ok id) ->
  r_execute_command (cl_server (source self))
    ["XTRIM"; "test:stream:trim_minid"; "MINID"; "5-0"] = Err ex ->
  exn_cls ex = ResponseError ->
  exists tr,
    test_trim_minid self = (tr, Return true)
    /\ Forall (fun ev => is_stream_read ev = false) tr
    /\ Forall (fun ev => exists c, ev = Call (cl_side (source self)) c) tr.
Proof.
  intros Hadd Hx Hc. unfold test_trim_minid.
  destruct (xadd_loop "test:stream:trim_minid" 10 0 []) as (tr & ids & E & Q & Q').
  { intros i Hi. apply Hadd. lia. }
  cbv zeta in E |- *. rewrite E. unfold_calls. rewrite Hx.
  cbn [mbind M_bind bind of_reply try_except_cls mret M_ret ret app].
  rewrite decide_True by done.
  eexists. split; [reflexivity|].
  rewrite !Forall_app. repeat split; try done; repeat constructor; eauto.
Qed.

Lemma plain_xadd_loop {S} key (g : S -> nat -> list (string * string))
    (h : S -> nat -> string) (k : S -> nat -> S) maxlen xs acc :
  plain (for_each (fun a i => xadd (source self) key (g a i) (h a i) maxlen true;;
                              mret (k a i)) xs acc).
Proof.
  apply plain_for_each. intros a x.
  apply plain_bind; [apply plain_call|done].
Qed.

(** Every test returns or raises an [Exception]. *)
Lemma tests_plain :
  plain (test_basic_xadd self) /\ plain (test_autoid_xadd self)
  /\ plain (test_trim_maxlen self) /\ plain (test_trim_minid self)
  /\ plain (test_trim_to_zero self) /\ plain (test_xadd_with_trim self).
Proof.
  pose proof (fun key => returns_plain _ (compare_streams_returns key)) as Hc.
  unfold test_basic_xadd, test_autoid_xadd, test_trim_maxlen, test_trim_minid,
    test_trim_to_zero, test_xadd_with_trim.
  repeat split.
  all: repeat first
         [ apply Hc
         | apply plain_call
         | apply (plain_xadd_loop _ (fun _ i => [("seq", str i)]))
         | apply plain_try_except_cls; [|done]
         | apply plain_bind; [|intros ?] ].
Qed.

(** [cleanup] swallows every failure. *)
Lemma cleanup_returns : returns (cleanup self).
Proof.
  unfold cleanup. apply returns_for_each. intros u key.
  apply returns_try_except_all. by exists [], tt.
Qed.

(** The suite always returns its verdict. *)
Lemma run_all_tests_returns : returns (run_all_tests self).
Proof.
  destruct tests_plain as (P1 & P2 & P3 & P4 & P5 & P6).
  unfold run_all_tests. apply returns_bind; [apply cleanup_returns|intros _].
  cbv zeta. apply returns_bind; [|intros results; by do 2 eexists].
  cbn [for_each].
  repeat (apply returns_bind;
          [apply returns_try_except;
           [apply plain_bind; [assumption|done]|intros ?; by do 2 eexists]
          |intros ?]).
  by do 2 eexists.
Qed.

(** The exit status is decided by the suite's verdict. *)
Lemma suite_exit_status :
  exists tr success,
    run_all_tests self = (tr, Return success)
    /\ exit_status self = if success then 0%Z else 1%Z.
Proof.
  destruct run_all_tests_returns as (tr & success & E).
  exists tr, success. split; [done|].
  unfold exit_status, main, main_handler. rewrite E. by destruct success.
Qed.

End Tester.

End StreamReplicationFacts.

(** ** The exit status of both scripts *)

Module ExitStatus.
Import Redis PyFacts.

(** C5, as the code has it.  In both scripts the exit status is 0 exactly
    when the run gets to its end with a passing verdict: for the RDB script,
    [main] reaches its last statement with a failure count of 0 (and then a
    verification pass over the generated records did count 0 failures); for
    the stream script, [run_all_tests] returns [True].  The stream script
    tells the failures apart: 1 for failed tests, 2 for an interrupt, 3 for
    any other exception.  The RDB script does not: every run that does not
    pass exits with status 1. *)
Theorem exit_status_contract :
  (forall config (e : RdbPhaseSync.env config) count,
     (RdbPhaseSync.exit_status e count = 0%Z
      <-> snd (RdbPhaseSync.main_steps e count) = Return 0)
     /\ (RdbPhaseSync.exit_status e count = 0%Z ->
         exists trw test_keys trv success_count fail_details,
           RdbPhaseSync.write_test_data e count
             (Client Source (RdbPhaseSync.env_source e))
             = (trw, Return (true, test_keys))
           /\ RdbPhaseSync.verify_test_data
                (Client Source (RdbPhaseSync.env_source e))
                (Client Target (RdbPhaseSync.env_target e)) test_keys
              = (trv, Return (success_count, 0, fail_details)))
     /\ (RdbPhaseSync.exit_status e count = 0%Z
         \/ RdbPhaseSync.exit_status e count = 1%Z))
  /\ (forall self,
        (StreamReplication.exit_status self = 0%Z
         <-> snd (StreamReplication.run_all_tests self) = Return true)
        /\ (StreamReplication.exit_status self = 1%Z
            <-> snd (StreamReplication.run_all_tests self) = Return false))
  /\ (forall tr,
        process_status
          (snd (StreamReplication.main_handler (tr, KeyboardInterrupt))) = 2%Z
        /\ forall ex,
            process_status
              (snd (StreamReplication.main_handler (tr, Raised ex))) = 3%Z).
Proof.
  split; [|split].
  - intros config e count.
    pose proof (RdbPhaseSyncFacts.main_steps_cases e count) as Hm.
    rewrite RdbPhaseSyncFacts.exit_status_of.
    unfold holds, RdbPhaseSync.main_post in Hm. cbn [app] in Hm.
    destruct (RdbPhaseSync.main_steps e count) as [tr [fc|ex| |code]];
      cbn [fst snd] in *.
    + destruct fc as [|fc]; cbn; (split; [split; [done|by intros [=]]|]).
      * split; [|by left].
        intros _. destruct Hm as (trw & ks & trv & sc & fd & Ew & Ev & _).
        by exists trw, ks, trv, sc, fd.
      * split; [done|by right].
    + split; [split; [done|by intros [=]]|]. split; [done|by right].
    + split; [split; [done|by intros [=]]|]. split; [done|by right].
    + subst code. split; [split; [done|by intros [=]]|]. split; [done|by right].
  - intros self.
    destruct (StreamReplicationFacts.suite_exit_status self) as (tr & b & E & ->).
    rewrite E. cbn [snd]. destruct b; split; split; (done || by intros [=]).
  - intros tr. split; [done|by intros ex].
Qed.

End ExitStatus.

(** ** The properties at concrete runs *)

Module Scenarios.
Import Redis Examples.

(** The generator's cycle, on the 20 keys of the good run. *)
Lemma cycle_of_twenty :
  List.length generated_keys = 20
  /\ (forall i, i < 20 ->
        exists k, generated_keys !! i = Some k /\ RdbPhaseSync.in_slot i k)
  /\ (forall k, k ∈ generated_keys ->
        k.1.2 ∈ ["string"; "hash"; "list"; "set"; "zset"]
        /\ k.1.2 <> "stream")
  /\ (5 <= 20 ->
      forall lbl, lbl ∈ ["string"; "hash"; "list"; "set"; "zset"] ->
                  exists k, k ∈ generated_keys /\ k.1.2 = lbl).
Proof.
  apply (RdbPhaseSyncFacts.write_test_data_cycle good_run (Client Source healthy)
           20 generated_trace generated_keys).
  vm_compute. reflexivity.
Defined.

(** Against C1 as the specification words it: the good run with N = 20 writes 20 records, and
    none of them is a stream; the record of index 5, where the cycle would
    reach its sixth kind, is a string. *)
Lemma twenty_records_no_stream :
  snd (RdbPhaseSync.write_test_data good_run 20 (Client Source healthy))
    = Return (true, generated_keys)
  /\ List.length generated_keys = 20
  /\ generated_keys !! 5
     = Some ("rdb_phase_test:key_005", "string",
             Some "special_测试_5_🔥_1700000000")
  /\ ~ (exists k, k ∈ generated_keys /\ k.1.2 = "stream").
Proof.
  split; [by vm_compute|]. split; [reflexivity|]. split; [reflexivity|].
  intros (k & Hk & Hs). apply list_elem_of_In in Hk. unfold generated_keys in Hk.
  cbn [In] in Hk.
  repeat (destruct Hk as [<-|Hk]; [discriminate Hs|]). exact Hk.
Qed.

(** A key the target has lost is classified Missing after one [EXISTS]. *)
Lemma missing_key_is_classified :
  RdbPhaseSync.verify_one (Client Source healthy)
    (Client Target (without_key "rdb_phase_test:key_006" healthy)) (0, 0, [])
    ("rdb_phase_test:key_006", "string", None)
  = ([Call Target (EXISTS "rdb_phase_test:key_006")],
     Return (0, 1, ["rdb_phase_test:key_006: Missing in target"])).
Proof.
  apply (proj1 (RdbPhaseSyncFacts.verify_one_protocol
                  (Client Source healthy)
                  (Client Target (without_key "rdb_phase_test:key_006" healthy))
                  (0, 0, []) "rdb_phase_test:key_006" "string" None)).
  reflexivity.
Defined.

(** A record labelled "stream" passes on existence and type alone. *)
Lemma stream_record_passes_unread :
  RdbPhaseSync.verify_one (Client Source healthy) (Client Target healthy)
    (0, 0, []) ("rdb_phase_test:log", "stream", None)
  = ([Call Target (EXISTS "rdb_phase_test:log");
      Call Source (TYPE "rdb_phase_test:log");
      Call Target (TYPE "rdb_phase_test:log")],
     Return (1, 0, [])).
Proof.
  apply (RdbPhaseSyncFacts.verify_one_unknown_kind
           (Client Source healthy) (Client Target healthy)
           (0, 0, []) "rdb_phase_test:log" "stream" None 1%Z "string").
  - intros H. apply list_elem_of_In in H. cbn in H.
    repeat (destruct H as [H|H]; [discriminate H|]). exact H.
  - reflexivity.
  - discriminate.
  - reflexivity.
  - reflexivity.
Defined.

(** Two passes over the 20 generated keys, the stores answering the
    reads of the second as they answered those of the first. *)
Lemma second_pass_agrees :
  RdbPhaseSync.verify_test_data (Client Source healthy)
    (Client Target (without_key "rdb_phase_test:key_006" healthy))
    generated_keys
  = RdbPhaseSync.verify_test_data (Client Source (rejecting_sadd healthy))
      (Client Target (rejecting_sadd (without_key "rdb_phase_test:key_006" healthy)))
      generated_keys.
Proof.
  apply RdbPhaseSyncFacts.verify_test_data_idempotent.
  intros k _. by repeat split.
Defined.

(** The run in which the 4th write is refused. *)
Lemma refused_write_aborts :
  (exists tr, RdbPhaseSync.write_test_data refused_run 20
                (Client Source (rejecting_sadd healthy)) = (tr, Return (false, [])))
  /\ (forall n, snd (RdbPhaseSync.main_steps refused_run 20) <> Return n)
  /\ Forall (fun ev => RdbPhaseSync.is_verification_query ev = false)
            (fst (RdbPhaseSync.main_steps refused_run 20))
  /\ RdbPhaseSync.exit_status refused_run 20 = 1%Z.
Proof.
  apply (RdbPhaseSyncFacts.generation_fails_fast refused_run 20).
  exists 3. split; [lia|reflexivity].
Defined.

(** Against C5 as the specification words it, on the RDB script: a run with one verification
    failure, a run that cannot connect to the source, and a run that the
    operator interrupts all exit with status 1. *)
Lemma rdb_exit_codes_coincide :
  (snd (RdbPhaseSync.main_steps lossy_run 20) = Return 1
   /\ RdbPhaseSync.exit_status lossy_run 20 = 1%Z)
  /\ (snd (RdbPhaseSync.connect_redis unreachable_run Source) = SysExit 1%Z
      /\ RdbPhaseSync.exit_status unreachable_run 20 = 1%Z)
  /\ (snd (RdbPhaseSync.main_steps interrupted_run 20) = KeyboardInterrupt
      /\ RdbPhaseSync.exit_status interrupted_run 20 = 1%Z).
Proof. repeat split; by vm_compute. Qed.

(** The stream comparison on a target that lost the stream. *)
Lemma lost_stream_compares_equal :
  (StreamReplication.absent healthy "test:stream:basic" ->
   snd (StreamReplication.compare_streams lost_streams "test:stream:basic")
     = Return true)
  /\ (StreamReplication.present healthy "test:stream:basic" ->
      snd (StreamReplication.compare_streams lost_streams "test:stream:basic")
        = Return true).
Proof.
  apply (StreamReplicationFacts.compare_streams_on_absent_target lost_streams
           "test:stream:basic").
  exists (Exn ResponseError "no such key"). by repeat split.
Defined.

(** [test_trim_minid] against a source without [XTRIM ... MINID]. *)
Lemma old_source_skips_minid :
  exists tr,
    StreamReplication.test_trim_minid old_source = (tr, Return true)
    /\ Forall (fun ev => StreamReplication.is_stream_read ev = false) tr
    /\ Forall (fun ev => exists c, ev = Call Source c) tr.
Proof.
  apply (StreamReplicationFacts.test_trim_minid_skips old_source
           (Exn ResponseError "syntax error")).
  - intros i _. eexists. reflexivity.
  - reflexivity.
  - reflexivity.
Defined.

End Scenarios.

(** * Further properties *)

(** ** The RDB phase script: generator and verifier *)

Module RdbPhaseSyncEdges.
Import Redis RdbPhaseSync PyFacts RdbPhaseSyncFacts.

Local Arguments String.append : simpl never.
Local Arguments String.eqb : simpl never.

Ltac step :=
  match goal with
  | |- context [of_reply ?r] => destruct r eqn:?; cbn
  | |- context [if ?b then _ else _] => destruct b eqn:?; cbn
  end.

Lemma clean_test_keys_shape r :
  exists tr,
    clean_test_keys r = (tr, Return tt)
    /\ match r_keys (cl_server r) "rdb_phase_test:*" with
       | Ok (k :: ks) =>
           tr = [Call (cl_side r) (KEYS "rdb_phase_test:*");
                 Call (cl_side r) (DEL (k :: ks))]
       | _ => tr = [Call (cl_side r) (KEYS "rdb_phase_test:*")]
       end.
Proof.
  unfold clean_test_keys, keys, delete, call.
  change (TEST_PREFIX +:+ "*") with "rdb_phase_test:*".
  destruct (r_keys (cl_server r) "rdb_phase_test:*") as [[|k ks]|ex]; cbn.
  - by eexists.
  - destruct (r_delete (cl_server r) (k :: ks)); cbn; by eexists.
  - by eexists.
Qed.

(** X1. [clean_test_keys] cannot fail: it asks for the keys under the test
    prefix, deletes exactly the keys it was given, and sends no [DEL] when
    it was given none or when [KEYS] raised; a [DEL] that raises is
    swallowed. *)
Theorem clean_test_keys_calls r :
  exists tr,
    clean_test_keys r = (tr, Return tt)
    /\ match r_keys (cl_server r) "rdb_phase_test:*" with
       | Ok (k :: ks) =>
           tr = [Call (cl_side r) (KEYS "rdb_phase_test:*");
                 Call (cl_side r) (DEL (k :: ks))]
       | _ => tr = [Call (cl_side r) (KEYS "rdb_phase_test:*")]
       end.
Proof. apply clean_test_keys_shape. Qed.

Lemma clean_test_keys_housekeeping r :
  exists tr, clean_test_keys r = (tr, Return tt)
    /\ Forall (fun ev => is_housekeeping ev = true) tr.
Proof.
  destruct (clean_test_keys_shape r) as (tr & E & Htr). exists tr.
  split; [done|].
  destruct (r_keys _ _) as [[|k ks]|ex]; subst tr; by repeat constructor.
Qed.

Section Generate.
Context {config : Type}.
Variable e : env config.
Variable source_r : client.

Lemma write_one_single test_keys i :
  List.length (fst (write_one e source_r test_keys i)) = 1.
Proof.
  unfold write_one.
  destruct (i mod 6) as [|[|[|[|[|n]]]]].
  all: unfold set_, hset, lpush, sadd, zadd, call; cbn; by repeat step.
Qed.

(** The generator's loop: it returns after one call per index when no
    write is refused, and raises right after the first refused write. *)
Lemma write_loop_calls n : forall a test_keys,
  match for_each (write_one e source_r) (seq a n) test_keys with
  | (tr, Return _) =>
      List.length tr = n
      /\ forall i, a <= i < a + n -> write_fails e source_r i = false
  | (tr, Raised _) =>
      exists i, a <= i < a + n
        /\ write_fails e source_r i = true
        /\ (forall j, a <= j < i -> write_fails e source_r j = false)
        /\ List.length tr = i - a + 1
  | _ => False
  end.
Proof.
  induction n as [|n IH]; intros a test_keys.
  - cbn. split; [done|]. intros i Hi. lia.
  - change (seq a (S n)) with (a :: seq (S a) n). rewrite for_each_cons.
    pose proof (write_one_single test_keys a) as Hone.
    destruct (write_one_ends e source_r test_keys a)
      as [(tr1 & k & E & _ & Hok)|(tr1 & ex & E & Hko)];
      rewrite E in Hone |- *; cbn in Hone.
    + rewrite bind_return. specialize (IH (S a) (test_keys ++ [k])).
      destruct (for_each _ _ _) as [tr [ks|ex| |]]; cbn [fst snd]; try done.
      * destruct IH as [Hl Hall]. split; [rewrite length_app; lia|].
        intros i Hi. destruct (decide (i = a)) as [->|]; [done|].
        apply Hall. lia.
      * destruct IH as (i & Hi & Hf & Hbefore & Hl). exists i.
        split; [lia|]. split; [done|]. split.
        -- intros j Hj. destruct (decide (j = a)) as [->|]; [done|].
           apply Hbefore. lia.
        -- rewrite length_app. lia.
    + cbn. exists a. split; [lia|]. split; [done|]. split; [intros j Hj; lia|].
      lia.
Qed.

(** X2. The generator succeeds exactly when the store accepts every one of
    the [count] writes; it then made [count] calls and returns [count]
    records.  When it fails it returns no record. *)
Theorem write_test_data_succeeds_iff count :
  exists tr success test_keys,
    write_test_data e count source_r = (tr, Return (success, test_keys))
    /\ (success = true <->
        forall i, i < count -> write_fails e source_r i = false)
    /\ (success = true ->
        List.length tr = count /\ List.length test_keys = count)
    /\ (success = false -> test_keys = []).
Proof.
  unfold write_test_data.
  pose proof (write_loop_calls count 0 []) as Hl.
  destruct (for_each _ _ _) as [tr [ks|ex| |]] eqn:E; cbn; try done.
  - destruct Hl as [Hlen Hall]. exists (tr ++ []), true, ks.
    split; [done|]. split; [split; [intros _ i Hi; apply Hall; lia|done]|].
    split; [|done]. intros _. rewrite app_nil_r. split; [done|].
    apply write_loop in E as (rs & -> & Hrs). apply Forall2_length in Hrs.
    by rewrite length_seq in Hrs.
  - destruct Hl as (i & Hi & Hf & _). exists (tr ++ []), false, [].
    split; [done|]. split; [|done]. split; [done|].
    intros Hall. rewrite Hall in Hf by lia. done.
Qed.

(** X3. The generator stops at the first refused write: if the write of
    index [i] is the first one refused, exactly [i + 1] calls were made,
    all of them writes to the source, and none after the refused one. *)
Theorem write_test_data_stops_at_failure count i :
  cl_side source_r = Source ->
  i < count ->
  write_fails e source_r i = true ->
  (forall j, j < i -> write_fails e source_r j = false) ->
  exists tr,
    write_test_data e count source_r = (tr, Return (false, []))
    /\ List.length tr = i + 1
    /\ Forall (fun ev => is_generator_write ev = true) tr.
Proof.
  intros Hside Hi Hf Hbefore. unfold write_test_data.
  pose proof (write_loop_calls count 0 []) as Hl.
  assert (Forall (fun ev => is_generator_write ev = true)
            (fst (for_each (write_one e source_r) (seq 0 count) []))) as Hw.
  { apply for_each_trace. intros a x. unfold write_one.
    destruct (x mod 6) as [|[|[|[|[|n]]]]].
    all: unfold set_, hset, lpush, sadd, zadd, call; rewrite Hside; cbn;
      repeat step; by repeat constructor. }
  destruct (for_each _ _ _) as [tr [ks|ex| |]]; cbn in *; try done.
  - destruct Hl as [_ Hall]. rewrite Hall in Hf by lia. done.
  - destruct Hl as (i' & Hi' & Hf' & Hbefore' & Hlen).
    assert (i' = i) as ->.
    { destruct (Nat.lt_trichotomy i' i) as [Hlt|[->|Hgt]]; [|done|].
      - rewrite Hbefore in Hf' by done. done.
      - rewrite Hbefore' in Hf by lia. done. }
    exists (tr ++ []). rewrite app_nil_r. split; [done|]. split; [lia|done].
Qed.

Lemma str_index n : index_of_digits (str n) = Some n.
Proof.
  unfold index_of_digits, str. rewrite NilZero.usu.
  - by rewrite Unsigned.of_to.
  - rewrite <- (Unsigned.of_to n) at 1. rewrite Unsigned.to_of.
    apply unorm_nonnil.
Qed.

Lemma zero_index s :
  s <> "" -> index_of_digits (String "0" s) = index_of_digits s.
Proof.
  intros Hs. unfold index_of_digits, NilZero.uint_of_string.
  destruct s as [|c s]; [done|]. cbn [NilEmpty.uint_of_string].
  by destruct (uint_of_char c (NilEmpty.uint_of_string s)).
Qed.

(** The three-digit form of an index reads back as the index: the pad
    changes no value. *)
Lemma fmt_03d_index n : index_of_digits (fmt_03d n) = Some n.
Proof.
  pose proof (str_index n) as Hn. unfold fmt_03d.
  destruct (str n) as [|c1 [|c2 s]]; [discriminate Hn| |]; cbv zeta;
    cbn [String.length].
  - change ("00" +:+ String c1 "") with (String "0" (String "0" (String c1 ""))).
    by rewrite 2!zero_index.
  - destruct s; cbn [String.length]; [|done].
    change ("0" +:+ String c1 (String c2 ""))
      with (String "0" (String c1 (String c2 ""))).
    by rewrite zero_index.
Qed.

Lemma fmt_03d_length n : 3 <= String.length (fmt_03d n).
Proof.
  pose proof (str_index n) as Hn. unfold fmt_03d.
  destruct (str n) as [|c1 [|c2 [|c3 s]]]; [discriminate Hn|..];
    cbv beta iota zeta delta [String.length String.append]; lia.
Qed.

Lemma prefix_append s t : String.prefix s (s +:+ t) = true.
Proof.
  induction s as [|c s IH]; [by destruct t|].
  change (String c s +:+ t) with (String c (s +:+ t)). cbn [String.prefix].
  destruct (ascii_dec c c); [done|congruence].
Qed.

Lemma append_assoc s t u : (s +:+ t) +:+ u = s +:+ t +:+ u.
Proof.
  induction s as [|c s IH]; [done|].
  change (String c ((s +:+ t) +:+ u) = String c (s +:+ t +:+ u)).
  by rewrite IH.
Qed.

(** X4. The keys of a successful generation: every key is the test prefix,
    "key_" and at least three digits that read back as the record's index.
    So the keys are pairwise distinct (no record overwrites another), and
    all lie under the prefix that [clean_test_keys] enumerates. *)
Theorem generated_keys_distinct count tr test_keys :
  write_test_data e count source_r = (tr, Return (true, test_keys)) ->
  (forall i k, test_keys !! i = Some k ->
     exists digits,
       key_of k = "rdb_phase_test:key_" +:+ digits
       /\ 3 <= String.length digits
       /\ index_of_digits digits = Some i)
  /\ NoDup (key_of <$> test_keys)
  /\ (forall k, k ∈ test_keys -> String.prefix TEST_PREFIX (key_of k) = true).
Proof.
  intros Hrs%write_test_data_slots.
  assert (forall i k, test_keys !! i = Some k ->
            key_of k = "rdb_phase_test:key_" +:+ fmt_03d i) as Hkey.
  { intros i k Hk.
    destruct (Forall2_lookup_r _ _ _ i k Hrs Hk) as (j & Hj & [v ->]).
    apply lookup_seq in Hj as [-> _]. reflexivity. }
  split; [|split].
  - intros i k Hk. exists (fmt_03d i).
    split; [by apply Hkey|]. split; [apply fmt_03d_length|apply fmt_03d_index].
  - apply NoDup_alt. intros i j key Hi Hj.
    apply list_lookup_fmap_Some in Hi as (ki & -> & Hki).
    apply list_lookup_fmap_Some in Hj as (kj & Heq & Hkj).
    rewrite (Hkey i ki Hki), (Hkey j kj Hkj) in Heq.
    apply String.app_inj in Heq.
    pose proof (fmt_03d_index i) as Ei. rewrite Heq, fmt_03d_index in Ei.
    congruence.
  - intros k [i Hk]%list_elem_of_lookup. rewrite (Hkey i k Hk).
    change ("rdb_phase_test:key_" +:+ fmt_03d i)
      with (TEST_PREFIX +:+ ("key_" +:+ fmt_03d i)).
    apply prefix_append.
Qed.

End Generate.

Lemma for_each_length {A S} (f : S -> A -> M S) (b : nat) xs acc :
  (forall a x, List.length (fst (f a x)) <= b) ->
  List.length (fst (for_each f xs acc)) <= b * List.length xs.
Proof.
  intros Hf. revert acc. induction xs as [|x xs IH]; intros acc; cbn; [lia|].
  specialize (Hf acc x). destruct (f acc x) as [tr [a| | |]]; cbn in *; try lia.
  specialize (IH a). destruct (for_each f xs a) as [tr' c]. cbn in *.
  rewrite length_app. lia.
Qed.

Section Verify.
Variables source_r target_r : client.

Ltac unfold_calls :=
  unfold exists_, type_, get, hgetall, lrange, smembers, zrange, call.

Lemma verify_value_reads t key key_type :
  Forall (fun ev => is_verification_query ev = true)
         (fst (verify_value source_r target_r t key key_type))
  /\ List.length (fst (verify_value source_r target_r t key key_type)) <= 2.
Proof.
  unfold verify_value. unfold_calls.
  repeat (destruct (String.eqb key_type _);
          [cbn; repeat step; (split; [by repeat constructor|cbn; lia])|]).
  cbn. split; [constructor|lia].
Qed.

Lemma verify_one_reads t k :
  Forall (fun ev => is_verification_query ev = true)
         (fst (verify_one source_r target_r t k))
  /\ List.length (fst (verify_one source_r target_r t k)) <= 5.
Proof.
  destruct k as [[key key_type] v]. unfold verify_one.
  destruct (verify_value_reads t key key_type) as [Hq Hl].
  destruct (verify_value source_r target_r t key key_type) as [trv c].
  unfold_calls. cbn in *.
  destruct c; repeat step; rewrite ?app_nil_r;
    (split; [by repeat constructor|cbn; lia]).
Qed.

(** X5. A verification pass only reads: every call it makes is an [EXISTS], a
    [TYPE] or one of the five value reads, at most five per record; it
    stores and deletes nothing on either store. *)
Theorem verify_test_data_only_reads test_keys :
  Forall (fun ev => is_verification_query ev = true)
         (fst (verify_test_data source_r target_r test_keys))
  /\ List.length (fst (verify_test_data source_r target_r test_keys))
     <= 5 * List.length test_keys.
Proof.
  unfold verify_test_data. split.
  - apply for_each_trace. intros a x. apply verify_one_reads.
  - apply for_each_length. intros a x. apply verify_one_reads.
Qed.

(** X6. Every entry of [fail_details] names its record: it starts with the
    record's key, a colon and a space. *)
Theorem failure_detail_names_key k d :
  failure_detail source_r target_r k = Some d ->
  String.prefix (key_of k +:+ ": ") d = true.
Proof.
  destruct k as [[key key_type] v]. unfold failure_detail, verify_one, key_of.
  cbn [fst].
  assert (forall rest, String.prefix (key +:+ ": ") (key +:+ ": " +:+ rest) = true)
    as Hp.
  { intros rest. rewrite <- (append_assoc key ": " rest). apply prefix_append. }
  assert (match snd (verify_value source_r target_r (0, 0, []) key key_type) with
          | Return (_, _, d :: _) => String.prefix (key +:+ ": ") d = true
          | _ => True
          end) as Hv.
  { unfold verify_value. unfold_calls.
    repeat (destruct (String.eqb key_type _);
            [cbn; repeat step; try done;
             first [apply (Hp "Value mismatch") | apply (Hp "Hash mismatch")
                   | apply (Hp "List mismatch") | apply (Hp "Set mismatch")
                   | apply (Hp "ZSet mismatch")]|]).
    done. }
  destruct (verify_value source_r target_r (0, 0, []) key key_type) as [trv c].
  unfold_calls. cbn in *.
  destruct c as [[[sc fc] [|d' fd]]| | |]; repeat step; intros [= <-];
    first [done | apply Hp].
Qed.

End Verify.

Lemma omap_all_none {A B} (f : A -> option B) (l : list A) :
  (forall x, x ∈ l -> f x = None) -> omap f l = [].
Proof.
  induction l as [|x l IH]; intros Hf; [done|]. cbn.
  rewrite (Hf x) by apply list_elem_of_here.
  apply IH. intros y Hy. apply Hf. by apply list_elem_of_further.
Qed.

(** X7. No false alarm: when source and target are one and the same store,
    which holds every test key and answers every read, each record passes,
    whatever its kind label; the pass counts no failure. *)
Theorem verify_same_store_passes srv test_keys :
  (forall k, k ∈ test_keys -> answers_cleanly srv (key_of k)) ->
  exists tr,
    verify_test_data (Client Source srv) (Client Target srv) test_keys
      = (tr, Return (List.length test_keys, 0, [])).
Proof.
  intros Hclean.
  assert (forall k, k ∈ test_keys ->
            failure_detail (Client Source srv) (Client Target srv) k = None)
    as Hnone.
  { intros [[key key_type] v] Hk.
    destruct (Hclean _ Hk)
      as (n & ty & g & h & l & s & z & He & Hn & Ht & Hg & Hh & Hl & Hs & Hz & Hzz).
    unfold key_of in *. cbn [fst] in *.
    unfold failure_detail, verify_one, verify_value.
    unfold exists_, type_, get, hgetall, lrange, smembers, zrange, call.
    cbn [cl_side cl_server]. rewrite He, Ht, Hg, Hh, Hl, Hs, Hz. cbn.
    apply Z.eqb_neq in Hn. rewrite Hn.
    rewrite !bool_decide_eq_false_2 by (intros H; by apply H).
    rewrite Hzz. cbn.
    by repeat (destruct (String.eqb key_type _); [done|]). }
  destruct (verify_loop (Client Source srv) (Client Target srv) test_keys 0 0 [])
    as (tr & E & _).
  rewrite (omap_all_none _ _ Hnone) in E. cbn in E.
  exists tr. unfold verify_test_data. rewrite E. by rewrite Nat.sub_0_r.
Qed.

Section Main.
Context {config : Type}.
Variable e : env config.

Lemma write_test_data_writes count :
  exists tr r,
    write_test_data e count (Client Source (env_source e)) = (tr, Return r)
    /\ Forall (fun ev => is_generator_write ev = true) tr.
Proof.
  destruct (write_test_data_ends e (Client Source (env_source e)) count)
    as (tr & r & E & _).
  exists tr, r. split; [done|].
  unfold write_test_data in E.
  pose proof (for_each_trace (fun ev => is_generator_write ev = true)
                (write_one e (Client Source (env_source e))) (seq 0 count) [])
    as Hw.
  destruct (for_each _ _ _) as [tr0 [ks|ex| |]]; cbn in E; try done.
  all: injection E as <- _; rewrite app_nil_r; apply Hw.
  all: intros a x; unfold write_one; destruct (x mod 6) as [|[|[|[|[|n]]]]].
  all: unfold set_, hset, lpush, sadd, zadd, call; cbn;
    repeat step; by repeat constructor.
Qed.

Ltac all_of := rewrite ?Forall_app; repeat split; try done; by repeat constructor.

Ltac same_list :=
  subst; cbn [fst snd sys_exit app];
  repeat (progress cbn [app] || rewrite <- app_assoc || rewrite app_nil_r);
  reflexivity.

Ltac phased_with b g v a := exists b, g, v, a; split; [same_list|all_of].

Lemma main_steps_walk count : holds (run_post e) [] (main_steps e count).
Proof.
  unfold main_steps.
  apply holds_bind.
  match goal with |- context [load_config e ?p] =>
    destruct (load_config_ends e p) as [[cfg E]|E]; rewrite E end.
  2: { split; [phased_with (@nil event) (@nil event) (@nil event) (@nil event)|].
       split; [done|]. intros _. constructor. }
  cbv beta iota zeta; apply holds_bind. unfold lift.
  destruct (env_endpoints e cfg) as [eps|ex]; cbn [of_reply].
  2: { split; [phased_with (@nil event) (@nil event) (@nil event) (@nil event)|].
       split; [done|]. intros _. constructor. }
  cbv beta iota zeta; apply holds_bind.
  destruct (connect_redis_ends e Source) as [E1|E1]; rewrite E1.
  2: { split; [phased_with [Call Source PING] (@nil event) (@nil event) (@nil event)|].
       split; [done|]. intros _. by repeat constructor. }
  cbv beta iota zeta; apply holds_bind.
  destruct (connect_redis_ends e Target) as [E2|E2]; rewrite E2.
  2: { split; [phased_with [Call Source PING; Call Target PING]
                 (@nil event) (@nil event) (@nil event)|].
       split; [done|]. intros _. by repeat constructor. }
  cbv beta iota zeta; apply holds_bind.
  destruct (clean_test_keys_housekeeping (Client Source (env_source e)))
    as (tr1 & E3 & Q1).
  rewrite E3.
  cbv beta iota zeta; apply holds_bind.
  destruct (clean_test_keys_housekeeping (Client Target (env_target e)))
    as (tr2 & E4 & Q2).
  rewrite E4.
  cbv beta iota zeta; apply holds_bind. rewrite wait_for_user_start_ends.
  remember (Call Source PING :: Call Target PING :: tr1 ++ tr2 ++ [Input])
    as setup eqn:Hsetup.
  assert (Forall (fun ev => is_housekeeping ev = true) setup) as Qs.
  { subst setup. do 2 (constructor; [done|]). all_of. }
  destruct (env_input e 0) as [l0| |] eqn:E0.
  2,3: split; [phased_with setup (@nil event) (@nil event) (@nil event)|];
       (split; [by auto|]); intros _; all_of.
  cbv beta iota zeta; apply holds_bind.
  destruct (write_test_data_writes count) as (trw & [success test_keys] & Ew & Qw).
  rewrite Ew. destruct success; cbn [negb].
  2: { split; [phased_with setup trw (@nil event) (@nil event)|].
       split; [done|]. intros H. by destruct (H l0). }
  cbv beta iota zeta; apply holds_bind.
  destruct (verify_test_data_returns (Client Source (env_source e))
              (Client Target (env_target e)) test_keys)
    as (trv & sc & fc & fd & Ev & Hsum).
  assert (Forall (fun ev => is_verification_query ev = true) trv) as Qv.
  { replace trv with (fst (verify_test_data (Client Source (env_source e))
                             (Client Target (env_target e)) test_keys))
      by (by rewrite Ev).
    apply for_each_trace. intros a x. apply verify_one_reads. }
  rewrite Ev.
  cbv beta iota zeta; apply holds_bind. rewrite report_results_ends by lia.
  match goal with |- context [Results ?r] =>
    remember (Results r) as summary eqn:Hsummary end.
  assert (is_housekeeping summary = true) as Qr by (by subst summary).
  cbv beta iota zeta; apply holds_bind. unfold input at 1.
  destruct (env_input e 1) as [l1| |] eqn:E1'.
  2,3: split; [phased_with setup trw trv [summary; Input]|];
       (split; [auto|]); intros H; by destruct (H l0).
  cbv beta iota zeta; apply holds_bind.
  destruct (String.eqb (lower l1) "y"); unfold holds;
    cbn [mbind M_bind bind mret M_ret ret fst snd app].
  - split.
    + phased_with setup trw trv ([summary; Input] ++ tr1 ++ tr2).
    + split; [by eauto|]. intros H. by destruct (H l0).
  - split.
    + phased_with setup trw trv [summary; Input].
    + split; [by eauto|]. intros H. by destruct (H l0).
Qed.

Lemma main_steps_run count :
  run_post e (fst (main_steps e count)) (snd (main_steps e count)).
Proof. apply (main_steps_walk count). Qed.

(** X8. [main] keeps its phases apart, however the run ends: the calls it
    makes are housekeeping (pings, key listing and deletion, prompts, the
    summary), then the generator's writes to the source, then the verifier's
    reads, then housekeeping again.  No seed is written once a read of the
    verification has been made. *)
Theorem main_keeps_phases count : phased (fst (main_steps e count)).
Proof. apply (main_steps_run count). Qed.

(** X9. The script never stores data on the target: of all the calls [main]
    makes to the target none is a [SET], [HSET], [LPUSH], [SADD], [ZADD] or
    a stream command; the target is pinged, listed, read and cleaned. *)
Theorem target_is_never_seeded count :
  Forall (fun ev => match ev with
                    | Call Target c => stores_data c = false
                    | _ => True
                    end)
         (fst (main_steps e count)).
Proof.
  destruct (main_steps_run count) as [(b & g & v & a & -> & Qb & Qg & Qv & Qa) _].
  rewrite !Forall_app. repeat split.
  - eapply Forall_impl; [exact Qb|]. by intros [[] []| |].
  - eapply Forall_impl; [exact Qg|]. by intros [[] []| |].
  - eapply Forall_impl; [exact Qv|]. by intros [[] []| |].
  - eapply Forall_impl; [exact Qa|]. by intros [[] []| |].
Qed.

(** X10. Unless the operator answers the first prompt (end of input and Ctrl-C
    are no answers), [main] writes and reads no test key: its calls are
    housekeeping only, and the script exits with status 1. *)
Theorem unanswered_start_prompt count :
  (forall l, env_input e 0 <> Typed l) ->
  Forall (fun ev => is_housekeeping ev = true) (fst (main_steps e count))
  /\ exit_status e count = 1%Z.
Proof.
  intros Hno. destruct (main_steps_run count) as (_ & Hc & Hhk).
  split; [by apply Hhk|]. rewrite exit_status_of.
  destruct (snd (main_steps e count)) as [fc|ex| |code]; try done.
  destruct Hc as (l0 & _ & E0 & _). by destruct (Hno l0).
Qed.

(** X11. The exit status is 0 only if the operator answers the last prompt
    too: when the prompt that offers the cleanup meets the end of input or
    Ctrl-C, the script exits with status 1, whatever the verification
    found. *)
Theorem unanswered_cleanup_prompt count :
  (forall l, env_input e 1 <> Typed l) ->
  (forall n, snd (main_steps e count) <> Return n)
  /\ exit_status e count = 1%Z.
Proof.
  intros Hno. destruct (main_steps_run count) as (_ & Hc & _).
  rewrite exit_status_of.
  destruct (snd (main_steps e count)) as [fc|ex| |code]; try done.
  destruct Hc as (l0 & l1 & _ & E1). by destruct (Hno l1).
Qed.

(** X12. When [main] reaches its end, the summary it printed accounts for
    every generated record: its total is the configured count, and synced
    plus failed make up that total. *)
Theorem summary_accounts_for_all count fail_count :
  snd (main_steps e count) = Return fail_count ->
  exists success_count rate,
    Results (Summary count success_count fail_count rate)
      ∈ fst (main_steps e count)
    /\ success_count + fail_count = count.
Proof.
  intros Hret. pose proof (main_steps_cases e count) as Hm.
  unfold holds, main_post in Hm. cbn [app] in Hm. rewrite Hret in Hm.
  destruct Hm as (trw & ks & trv & sc & fd & Ew & Ev & Hin).
  apply write_test_data_slots, Forall2_length in Ew. rewrite length_seq in Ew.
  destruct (verify_test_data_returns (Client Source (env_source e))
              (Client Target (env_target e)) ks)
    as (trv' & sc' & fc' & fd' & Ev' & Hsum).
  rewrite Ev in Ev'. injection Ev' as <- <- <- <-.
  rewrite <- Ew in *. eauto.
Qed.

(** X13. No configuration, no store call: when the configuration file cannot
    be loaded (the file is missing and no running df2redis points to an
    existing one, or parsing the file raises) [main] leaves with
    [sys.exit(1)] before it contacts any store. *)
Theorem main_without_config count :
  (env_path_exists e (config_path (env_argv e)) = false
   /\ (env_running_df2redis_config e = None
       \/ exists d, env_running_df2redis_config e = Some d
                    /\ env_path_exists e d = false))
  \/ (exists ex, env_path_exists e (config_path (env_argv e)) = true
                 /\ env_safe_load e (config_path (env_argv e)) = Err ex)
  \/ (exists d ex, env_path_exists e (config_path (env_argv e)) = false
                   /\ env_running_df2redis_config e = Some d
                   /\ env_safe_load e d = Err ex) ->
  main_steps e count = ([], SysExit 1%Z) /\ exit_status e count = 1%Z.
Proof.
  intros H.
  assert (load_config e (config_path (env_argv e)) = ([], SysExit 1%Z)) as E.
  { unfold load_config, lift.
    destruct H as [[Hp [Hd|(d & Hd & Hpd)]]|[(ex & Hp & Hl)|(d & ex & Hp & Hd & Hl)]];
      rewrite Hp, ?Hd, ?Hl; try done.
    - rewrite Hpd. by rewrite andb_false_r.
    - by destruct (negb _ && _). }
  assert (main_steps e count = ([], SysExit 1%Z)) as Em.
  { unfold main_steps. fold (config_path (env_argv e)). by rewrite E. }
  split; [done|]. by rewrite exit_status_of, Em.
Qed.

(** X14. A store that does not answer the ping ends the run at once: with the
    configuration loaded, if the source's ping raises, [main] exits with
    status 1 having made that one call (the target is not even contacted);
    if the target's raises, having made the two pings.  No key is listed,
    written, read or deleted. *)
Theorem main_without_connection count cfg eps :
  load_config e (config_path (env_argv e)) = ([], Return cfg) ->
  env_endpoints e cfg = Ok eps ->
  ((exists ex, r_ping (env_source e) = Err ex) ->
   main_steps e count = ([Call Source PING], SysExit 1%Z))
  /\ ((exists b ex, r_ping (env_source e) = Ok b
                    /\ r_ping (env_target e) = Err ex) ->
      main_steps e count
        = ([Call Source PING; Call Target PING], SysExit 1%Z)).
Proof.
  intros El Ee. split.
  - intros [ex Hp]. unfold main_steps. fold (config_path (env_argv e)).
    rewrite El. cbn. rewrite Ee. cbn.
    unfold connect_redis, ping, call. cbn. rewrite Hp. cbn.
    by destruct (exn_cls ex).
  - intros (b & ex & Hs & Ht). unfold main_steps.
    fold (config_path (env_argv e)). rewrite El. cbn. rewrite Ee. cbn.
    unfold connect_redis, ping, call. cbn. rewrite Hs, Ht. cbn.
    by destruct (exn_cls ex).
Qed.

(** X15. [load_config] returns a configuration in two cases only: the given
    file exists and parses; or the given file does not exist, a running
    df2redis names a file that exists, and that one parses.  A given file
    that exists and does not parse is not replaced by the running
    process's. *)
Theorem load_config_returns_iff path cfg :
  load_config e path = ([], Return cfg)
  <-> (env_path_exists e path = true /\ env_safe_load e path = Ok cfg)
      \/ (env_path_exists e path = false
          /\ exists detected_config,
               env_running_df2redis_config e = Some detected_config
               /\ detected_config <> ""
               /\ env_path_exists e detected_config = true
               /\ env_safe_load e detected_config = Ok cfg).
Proof.
  unfold load_config, lift.
  destruct (env_path_exists e path) eqn:Hp.
  - destruct (env_safe_load e path) as [c|ex]; cbn; split.
    + intros [= ->]. by left.
    + by intros [[_ [= ->]]|[[=] _]].
    + done.
    + by intros [[_ [=]]|[[=] _]].
  - destruct (env_running_df2redis_config e) as [d|]; cycle 1.
    { split; [done|]. by intros [[[=] _]|(_ & d & [=] & _)]. }
    destruct (String.eqb_spec d "") as [->|Hd]; cbn [negb andb].
    { split; [done|]. intros [[[=] _]|(_ & d & [= <-] & Hd & _)]. done. }
    destruct (env_path_exists e d) eqn:Hpd.
    + destruct (env_safe_load e d) as [c|ex] eqn:Hl; cbn; split.
      * intros [= ->]. right. split; [done|]. by exists d.
      * intros [[[=] _]|(_ & d' & [= <-] & _ & _ & Hl')]. congruence.
      * done.
      * intros [[[=] _]|(_ & d' & [= <-] & _ & _ & Hl')]. congruence.
    + split; [done|].
      intros [[[=] _]|(_ & d' & [= <-] & _ & Hpd' & _)]. congruence.
Qed.

End Main.

End RdbPhaseSyncEdges.

(** ** Events of a computation *)

Module TraceFacts.

Section Invariant.
Variable P : event -> Prop.

Lemma trace_call {A} s c (r : reply A) :
  P (Call s c) -> Forall P (fst (call s c r)).
Proof. intros Hc. by repeat constructor. Qed.

Lemma trace_bind {A B} (m : M A) (f : A -> M B) :
  Forall P (fst m) -> (forall a, Forall P (fst (f a))) ->
  Forall P (fst (m ≫= f)).
Proof.
  destruct m as [tr [a| | |]]; cbn; try done.
  intros Hm Hf. specialize (Hf a). destruct (f a) as [tr' c]. cbn in *.
  by apply Forall_app.
Qed.

Lemma trace_try_except {A} (body : M A) handler :
  Forall P (fst body) -> (forall ex, Forall P (fst (handler ex))) ->
  Forall P (fst (try_except body handler)).
Proof.
  destruct body as [tr [a|ex| |]]; cbn; try done.
  intros Hm Hh. specialize (Hh ex). destruct (handler ex) as [tr' c]. cbn in *.
  by apply Forall_app.
Qed.

Lemma trace_try_except_cls {A} cls (body : M A) handler :
  Forall P (fst body) -> (forall ex, Forall P (fst (handler ex))) ->
  Forall P (fst (try_except_cls cls body handler)).
Proof.
  destruct body as [tr [a|ex| |]]; cbn; try done.
  intros Hm Hh. destruct (decide _); [|done].
  specialize (Hh ex). destruct (handler ex) as [tr' c]. cbn in *.
  by apply Forall_app.
Qed.

Lemma trace_try_except_all {A} (body handler : M A) :
  Forall P (fst body) -> Forall P (fst handler) ->
  Forall P (fst (try_except_all body handler)).
Proof.
  destruct body as [tr [a|ex| |]], handler as [tr' c]; cbn; try done.
  all: intros; by apply Forall_app.
Qed.

End Invariant.

(** An invariant of the events of each iteration, element by element,
    is one of the loop's. *)
Lemma for_each_trace_each {A S} (P : event -> Prop) (f : S -> A -> M S)
    (xs : list A) (acc : S) :
  Forall (fun x => forall a, Forall P (fst (f a x))) xs ->
  Forall P (fst (for_each f xs acc)).
Proof.
  intros Hf. revert acc. induction Hf as [|x xs Hx _ IH]; intros acc; cbn.
  - constructor.
  - specialize (Hx acc). destruct (f acc x) as [tr [a| | |]]; cbn in *; try done.
    specialize (IH a). destruct (for_each f xs a) as [tr' c]. cbn in *.
    by apply Forall_app.
Qed.

(** What a computation does first, it does first whatever follows. *)
Lemma trace_head {A B} (m : M A) (f : A -> M B) ev :
  (exists rest, fst m = ev :: rest) ->
  exists rest, fst (m ≫= f) = ev :: rest.
Proof.
  destruct m as [tr [a| | |]]; cbn; try done.
  intros [rest ->]. destruct (f a) as [tr' c]. by eexists.
Qed.

End TraceFacts.

(** ** The stream replication script: comparison, tests and suite *)

Module StreamReplicationEdges.
Import Redis StreamReplication PyFacts TraceFacts StreamReplicationFacts.

Local Arguments String.append : simpl never.

(** Two lists of entries of one length differ at some position exactly
    when they are not the same list. *)
Lemma entries_differ_zip (a : list entry) : forall b,
  List.length a = List.length b ->
  entries_differ (zip a b) = false <-> a = b.
Proof.
  induction a as [|[i d] a IH]; intros [|[j d'] b] Hl; try done.
  injection Hl as Hl. specialize (IH b Hl). cbn.
  repeat case_bool_decide; split; intros Hab; try done; try congruence.
  - f_equal; [congruence|]. by apply IH.
  - apply IH. congruence.
Qed.

Section Tester.
Variable self : tester.

Ltac unfold_calls := unfold xinfo_stream, xrange, xadd, xtrim, execute_command, call.

(** X16. When both stores answer the four reads, [compare_streams] returns
    [True] exactly when the two streams agree in length, in their entries
    (same IDs and same fields, in the same order), and in their first and
    last entry. *)
Theorem compare_streams_verdict key si ti se te :
  r_xinfo_stream (cl_server (source self)) key = Ok si ->
  r_xinfo_stream (cl_server (target self)) key = Ok ti ->
  r_xrange (cl_server (source self)) key = Ok se ->
  r_xrange (cl_server (target self)) key = Ok te ->
  exists b,
    snd (compare_streams self key) = Return b
    /\ (b = true <->
        info_length si = info_length ti
        /\ se = te
        /\ info_first_entry si = info_first_entry ti
        /\ info_last_entry si = info_last_entry ti).
Proof.
  intros Esi Eti Ese Ete. unfold compare_streams. unfold_calls.
  rewrite Esi, Eti.
  cbn [mbind M_bind bind of_reply try_except app fst snd mret M_ret ret].
  case_bool_decide as Hlen; cbn.
  { exists false. split; [done|]. split; [done|]. by intros [? _]. }
  rewrite Ese, Ete. cbn.
  case_bool_decide as Hcount; cbn.
  { exists false. split; [done|]. split; [done|]. intros (_ & -> & _). done. }
  pose proof (entries_differ_zip se te Hcount) as Hzip.
  destruct (entries_differ (zip se te)); cbn.
  { exists false. split; [done|]. split; [done|]. intros (_ & Heq & _).
    by apply Hzip in Heq. }
  assert (se = te) as Hsame by by apply Hzip.
  repeat case_bool_decide; cbn; eexists; (split; [reflexivity|]);
    (split; [try done|]); try by intros (_ & _ & ? & ?).
Qed.

(** X17. When the source holds no stream under the key, the comparison asks the
    target once: it returns [False] if the target answers, and [True] if the
    target's [XINFO STREAM] raises, whatever it raises. *)
Theorem compare_streams_source_absent key :
  absent (cl_server (source self)) key ->
  compare_streams self key =
    ([Call (cl_side (source self)) (XINFO_STREAM key);
      Call (cl_side (target self)) (XINFO_STREAM key)],
     Return match r_xinfo_stream (cl_server (target self)) key with
            | Ok _ => false
            | Err _ => true
            end).
Proof.
  intros (ex & Es & Hc & Hm). unfold compare_streams. unfold_calls. rewrite Es.
  cbn [mbind M_bind bind of_reply try_except try_except_all app].
  rewrite decide_True by done. rewrite Hm.
  by destruct (r_xinfo_stream (cl_server (target self)) key).
Qed.

(** X18. A read that fails for another reason than a missing stream makes the
    comparison return [False]: whichever of the four reads is the first to
    raise, if what it raises is not a [ResponseError] that mentions
    "no such key", the streams count as different. *)
Theorem compare_streams_read_error key ex :
  is_no_such_key ex = false ->
  r_xinfo_stream (cl_server (source self)) key = Err ex
  \/ (exists si,
        r_xinfo_stream (cl_server (source self)) key = Ok si
        /\ (r_xinfo_stream (cl_server (target self)) key = Err ex
            \/ exists ti,
                 r_xinfo_stream (cl_server (target self)) key = Ok ti
                 /\ info_length si = info_length ti
                 /\ (r_xrange (cl_server (source self)) key = Err ex
                     \/ exists se,
                          r_xrange (cl_server (source self)) key = Ok se
                          /\ r_xrange (cl_server (target self)) key = Err ex))) ->
  snd (compare_streams self key) = Return false.
Proof.
  intros Hex Hread.
  assert (forall tr (again : M bool), snd (try_except (tr, Raised ex)
            (fun ex =>
               if decide (exn_cls ex = ResponseError) then
                 if contains "no such key" (lower (exn_str ex)) then again
                 else mret false
               else mret false)) = Return false) as Hh.
  { intros tr again. cbn [try_except]. unfold is_no_such_key in Hex.
    destruct (decide (exn_cls ex = ResponseError)) as [Hc|Hc]; [|done].
    rewrite bool_decide_eq_true_2 in Hex by done. cbn in Hex. by rewrite Hex. }
  unfold compare_streams.
  destruct Hread as [Es|(si & Es & [Et|(ti & Et & Hlen & [Ers|(se & Ers & Ert)])])].
  - unfold_calls. rewrite Es. cbn [mbind M_bind bind of_reply app]. apply Hh.
  - unfold_calls. rewrite Es, Et. cbn [mbind M_bind bind of_reply app]. apply Hh.
  - unfold_calls. rewrite Es, Et, Ers.
    cbn [mbind M_bind bind of_reply app].
    rewrite bool_decide_eq_false_2 by (intros H; by apply H).
    cbn [mbind M_bind bind of_reply app]. apply Hh.
  - unfold_calls. rewrite Es, Et, Ers, Ert.
    cbn [mbind M_bind bind of_reply app].
    rewrite bool_decide_eq_false_2 by (intros H; by apply H).
    cbn [mbind M_bind bind of_reply app]. apply Hh.
Qed.

(** One key of [cleanup]: the target's [DEL] is sent only after the
    source's succeeded. *)
Lemma cleanup_one key :
  try_except_all
    (delete (source self) [key];; delete (target self) [key];; mret tt)
    (mret tt)
  = (Call (cl_side (source self)) (DEL [key])
     :: match r_delete (cl_server (source self)) [key] with
        | Ok _ => [Call (cl_side (target self)) (DEL [key])]
        | Err _ => []
        end,
     Return tt).
Proof.
  unfold delete, call.
  destruct (r_delete (cl_server (source self)) [key]);
    [destruct (r_delete (cl_server (target self)) [key])|]; reflexivity.
Qed.

Lemma cleanup_loop test_keys :
  for_each
    (fun _ key =>
       try_except_all
         (delete (source self) [key];; delete (target self) [key];; mret tt)
         (mret tt))
    test_keys tt
  = (flat_map
       (fun key =>
          Call (cl_side (source self)) (DEL [key])
          :: match r_delete (cl_server (source self)) [key] with
             | Ok _ => [Call (cl_side (target self)) (DEL [key])]
             | Err _ => []
             end)
       test_keys,
     Return tt).
Proof.
  induction test_keys as [|key test_keys IH]; [done|].
  rewrite for_each_cons, cleanup_one, bind_return, IH. reflexivity.
Qed.

Lemma cleanup_shape :
  cleanup self
  = (flat_map
       (fun key =>
          Call (cl_side (source self)) (DEL [key])
          :: match r_delete (cl_server (source self)) [key] with
             | Ok _ => [Call (cl_side (target self)) (DEL [key])]
             | Err _ => []
             end)
       ["test:stream:basic"; "test:stream:autoid"; "test:stream:nomkstream";
        "test:stream:trim_maxlen"; "test:stream:trim_minid";
        "test:stream:rdb_phase"; "test:stream:stable_phase"],
     Return tt).
Proof. unfold cleanup. cbv zeta. apply cleanup_loop. Qed.

(** X19. [cleanup] cannot fail, and it deletes key by key, the source first:
    for each of its seven keys it sends [DEL] to the source and, only if
    that one succeeded, [DEL] to the target.  A source that refuses a
    [DEL] leaves the target's copy of that stream in place. *)
Theorem cleanup_calls :
  cleanup self
  = (flat_map
       (fun key =>
          Call (cl_side (source self)) (DEL [key])
          :: match r_delete (cl_server (source self)) [key] with
             | Ok _ => [Call (cl_side (target self)) (DEL [key])]
             | Err _ => []
             end)
       ["test:stream:basic"; "test:stream:autoid"; "test:stream:nomkstream";
        "test:stream:trim_maxlen"; "test:stream:trim_minid";
        "test:stream:rdb_phase"; "test:stream:stable_phase"],
     Return tt).
Proof. apply cleanup_shape. Qed.

(** X20. The stream of the sixth test is never cleaned up: no [DEL] of
    [cleanup] names "test:stream:inline_trim", the key to which
    [test_xadd_with_trim] adds, so its entries stay from one run of the
    suite to the next. *)
Theorem inline_trim_survives_cleanup :
  Forall (fun ev => forall s ks, ev = Call s (DEL ks) ->
                      "test:stream:inline_trim" ∉ ks)
         (fst (cleanup self))
  /\ exists rest,
       fst (test_xadd_with_trim self)
       = Call (cl_side (source self))
              (XADD "test:stream:inline_trim" [("seq", "0")] "*" (Some 10%Z) true)
         :: rest.
Proof.
  split.
  - rewrite cleanup_shape. cbn [fst]. apply Forall_flat_map.
    repeat (apply Forall_cons; split;
            [destruct (r_delete _ _); repeat constructor;
             intros s ks [= <- <-]; by intros [=]%list_elem_of_singleton|]).
    constructor.
  - unfold test_xadd_with_trim. cbv zeta. apply trace_head.
    change (seq 0 20) with (0 :: seq 1 19). rewrite for_each_cons.
    do 2 apply trace_head. by eexists.
Qed.




(** X22. [test_trim_minid] skips on a [ResponseError] only.  With the ten
    entries added: if [XTRIM key MINID 5-0] succeeds the test's result is
    the comparison's; if it raises anything but a [ResponseError] the test
    raises that exception, which the suite counts as a failure. *)
Theorem test_trim_minid_otherwise :
  (forall i, i < 10 ->
     exists id, r_xadd (cl_server (source self)) "test:stream:trim_minid"
                  [("seq", str i)] (str (i + 1) +:+ "-0") None true = Ok id) ->
  (r_execute_command (cl_server (source self))
     ["XTRIM"; "test:stream:trim_minid"; "MINID"; "5-0"] = Ok tt ->
   snd (test_trim_minid self)
   = snd (compare_streams self "test:stream:trim_minid"))
  /\ (forall ex,
        r_execute_command (cl_server (source self))
          ["XTRIM"; "test:stream:trim_minid"; "MINID"; "5-0"] = Err ex ->
        exn_cls ex <> ResponseError ->
        snd (test_trim_minid self) = Raised ex
        /\ verdict (test_trim_minid self) = false).
Proof.
  intros Hadd.
  destruct (xadd_loop self "test:stream:trim_minid" 10 0 [])
    as (tr & ids & E & _).
  { intros i Hi. apply Hadd. lia. }
  cbv zeta in E. split.
  - intros Hx. unfold test_trim_minid. cbv zeta. rewrite E.
    unfold execute_command, call. rewrite Hx.
    destruct (compare_streams_returns self "test:stream:trim_minid")
      as (trc & b & ->).
    reflexivity.
  - intros ex Hx Hc.
    assert (snd (test_trim_minid self) = Raised ex) as Hr.
    { unfold test_trim_minid. cbv zeta. rewrite E.
      unfold execute_command, call. rewrite Hx.
      cbn [mbind M_bind bind of_reply try_except_cls app snd].
      by rewrite decide_False by done. }
    split; [done|]. unfold verdict. by rewrite Hr.
Qed.

(** X23. The suite leaves the target's data to the replication: whatever the
    stores answer, the calls it makes to the target are [XINFO STREAM],
    [XRANGE] and [DEL]; every [XADD] and every trim goes to the source. *)
Theorem suite_leaves_target_data :
  cl_side (source self) = Source ->
  cl_side (target self) = Target ->
  Forall (fun ev => leaves_target_data ev = true) (fst (run_all_tests self)).
Proof.
  intros Hs Ht.
  pose (P := fun ev => leaves_target_data ev = true).
  assert (forall key, Forall P (fst (compare_streams self key))) as Hc.
  { intros key. unfold compare_streams, xinfo_stream, xrange.
    rewrite Hs, Ht.
    apply trace_try_except.
    - repeat first
        [ apply trace_call; reflexivity
        | apply trace_bind; [|intros ?]
        | match goal with
          | |- context [if ?b then _ else _] => destruct b
          end
        | by constructor ].
    - intros ex. destruct (decide _); [|by constructor].
      destruct (contains _ _); [|by constructor].
      apply trace_try_except_all; [|by constructor].
      apply trace_bind; [by apply trace_call|intros ?; by constructor]. }
  assert (forall {S} key (g : S -> nat -> list (string * string))
            (h : S -> nat -> string) (k : S -> nat -> S) maxlen xs acc,
            Forall P (fst (for_each
              (fun a i => xadd (source self) key (g a i) (h a i) maxlen true;;
                          mret (k a i)) xs acc))) as Hloop.
  { intros S key g h k maxlen xs acc. apply for_each_trace. intros a x.
    unfold xadd. rewrite Hs.
    apply trace_bind; [by apply trace_call|intros ?; by constructor]. }
  assert (Forall P (fst (test_basic_xadd self))
          /\ Forall P (fst (test_autoid_xadd self))
          /\ Forall P (fst (test_trim_maxlen self))
          /\ Forall P (fst (test_trim_minid self))
          /\ Forall P (fst (test_trim_to_zero self))
          /\ Forall P (fst (test_xadd_with_trim self))) as Htests.
  { unfold test_basic_xadd, test_autoid_xadd, test_trim_maxlen, test_trim_minid,
      test_trim_to_zero, test_xadd_with_trim.
    repeat split.
    all: repeat first
           [ apply Hc
           | apply (Hloop _ _ (fun _ i => [("seq", str i)]))
           | apply trace_try_except_cls; [|intros ?; by constructor]
           | apply trace_bind; [|intros ?] ].
    all: unfold xadd, xtrim, execute_command; rewrite Hs;
      by apply trace_call. }
  destruct Htests as (T1 & T2 & T3 & T4 & T5 & T6).
  unfold run_all_tests. apply trace_bind.
  { unfold cleanup, delete. rewrite Hs, Ht. apply for_each_trace. intros a x.
    apply trace_try_except_all; [|by constructor].
    repeat (apply trace_bind; [by apply trace_call|intros ?]). by constructor. }
  intros _. cbv zeta. apply trace_bind; [|intros ?; by constructor].
  apply for_each_trace_each.
  repeat (apply Forall_cons; split;
          [intros results; cbv beta iota; apply trace_try_except;
           [apply trace_bind; [assumption|intros ?; by constructor]
           |intros ?; by constructor]|]).
  constructor.
Qed.

End Tester.

End StreamReplicationEdges.

(** ** The further properties at concrete runs *)

Module EdgeScenarios.
Import Redis Examples.

(** The run in which the source refuses [SADD]: the 4th write is the
    first refused, and the last call made. *)
Lemma fourth_write_is_last :
  exists tr,
    RdbPhaseSync.write_test_data refused_run 20
      (Client Source (rejecting_sadd healthy)) = (tr, Return (false, []))
    /\ List.length tr = 3 + 1
    /\ Forall (fun ev => RdbPhaseSync.is_generator_write ev = true) tr.
Proof.
  apply (RdbPhaseSyncEdges.write_test_data_stops_at_failure refused_run
           (Client Source (rejecting_sadd healthy)) 20 3).
  - reflexivity.
  - lia.
  - reflexivity.
  - intros [|[|[|j]]] Hj; [reflexivity..|lia].
Defined.

(** The 20 keys of the good run. *)
Lemma twenty_distinct_keys :
  (forall i k, generated_keys !! i = Some k ->
     exists digits,
       RdbPhaseSync.key_of k = "rdb_phase_test:key_" +:+ digits
       /\ 3 <= String.length digits
       /\ RdbPhaseSync.index_of_digits digits = Some i)
  /\ NoDup (RdbPhaseSync.key_of <$> generated_keys)
  /\ (forall k, k ∈ generated_keys ->
        String.prefix RdbPhaseSync.TEST_PREFIX (RdbPhaseSync.key_of k) = true).
Proof.
  apply (RdbPhaseSyncEdges.generated_keys_distinct good_run
           (Client Source healthy) 20 generated_trace generated_keys).
  vm_compute. reflexivity.
Defined.

(** The detail recorded for a key the target has lost. *)
Lemma lost_key_is_named :
  String.prefix
    (RdbPhaseSync.key_of ("rdb_phase_test:key_006", "string", None) +:+ ": ")
    "rdb_phase_test:key_006: Missing in target" = true.
Proof.
  apply (RdbPhaseSyncEdges.failure_detail_names_key
           (Client Source healthy)
           (Client Target (without_key "rdb_phase_test:key_006" healthy))
           ("rdb_phase_test:key_006", "string", None)
           "rdb_phase_test:key_006: Missing in target").
  reflexivity.
Defined.

(** Verifying one store against itself, on the 20 generated keys. *)
Lemma one_store_verifies :
  exists tr,
    RdbPhaseSync.verify_test_data (Client Source healthy) (Client Target healthy)
      generated_keys
    = (tr, Return (List.length generated_keys, 0, [])).
Proof.
  apply (RdbPhaseSyncEdges.verify_same_store_passes healthy generated_keys).
  intros k _.
  exists 1%Z, "string", (Some "v"), {[ "field1" := "value_1" ]},
    ["item_3"; "item_2"; "item_1"], {[ "member_1" ]}, [("member_1", 10%float)].
  repeat split; done.
Defined.

(** The terminal closed at the first prompt. *)
Lemma closed_terminal_writes_nothing :
  Forall (fun ev => RdbPhaseSync.is_housekeeping ev = true)
         (fst (RdbPhaseSync.main_steps closed_terminal_run 20))
  /\ RdbPhaseSync.exit_status closed_terminal_run 20 = 1%Z.
Proof.
  apply (RdbPhaseSyncEdges.unanswered_start_prompt closed_terminal_run 20).
  intros l H. discriminate H.
Defined.

(** The terminal closed at the last prompt, after a verification that
    found every key. *)
Lemma abandoned_run_fails :
  (forall n, snd (RdbPhaseSync.main_steps abandoned_run 20) <> Return n)
  /\ RdbPhaseSync.exit_status abandoned_run 20 = 1%Z.
Proof.
  apply (RdbPhaseSyncEdges.unanswered_cleanup_prompt abandoned_run 20).
  intros l H. discriminate H.
Defined.

(** The summary of the good run. *)
Lemma good_run_summary :
  exists success_count rate,
    Results (Summary 20 success_count 0 rate)
      ∈ fst (RdbPhaseSync.main_steps good_run 20)
    /\ success_count + 0 = 20.
Proof.
  apply (RdbPhaseSyncEdges.summary_accounts_for_all good_run 20 0).
  vm_compute. reflexivity.
Defined.

(** A run without a configuration file. *)
Lemma unconfigured_run_exits :
  RdbPhaseSync.main_steps unconfigured_run 20 = ([], SysExit 1%Z)
  /\ RdbPhaseSync.exit_status unconfigured_run 20 = 1%Z.
Proof.
  apply (RdbPhaseSyncEdges.main_without_config unconfigured_run 20).
  left. split; [reflexivity|]. left. reflexivity.
Defined.

(** A run whose source cannot be reached. *)
Lemma unreachable_source_exits :
  RdbPhaseSync.main_steps unreachable_run 20 = ([Call Source PING], SysExit 1%Z).
Proof.
  destruct (RdbPhaseSyncEdges.main_without_connection unreachable_run 20 tt
              ("localhost:6380", "localhost:6379")) as [Hsource _].
  - reflexivity.
  - reflexivity.
  - apply Hsource. eexists. reflexivity.
Defined.

(** Two stores in step, compared. *)
Lemma in_sync_streams_match :
  exists b,
    snd (StreamReplication.compare_streams in_sync "test:stream:basic") = Return b
    /\ (b = true <->
        info_length (StreamInfo 1 (Some an_entry) (Some an_entry))
        = info_length (StreamInfo 1 (Some an_entry) (Some an_entry))
        /\ [an_entry] = [an_entry]
        /\ info_first_entry (StreamInfo 1 (Some an_entry) (Some an_entry))
           = info_first_entry (StreamInfo 1 (Some an_entry) (Some an_entry))
        /\ info_last_entry (StreamInfo 1 (Some an_entry) (Some an_entry))
           = info_last_entry (StreamInfo 1 (Some an_entry) (Some an_entry))).
Proof.
  apply (StreamReplicationEdges.compare_streams_verdict in_sync
           "test:stream:basic"); reflexivity.
Defined.

(** A stream the source does not hold and the target does. *)
Lemma empty_source_is_mismatch :
  StreamReplication.compare_streams empty_source "test:stream:basic"
  = ([Call Source (XINFO_STREAM "test:stream:basic");
      Call Target (XINFO_STREAM "test:stream:basic")],
     Return false).
Proof.
  apply (StreamReplicationEdges.compare_streams_source_absent empty_source
           "test:stream:basic").
  exists (Exn ResponseError "no such key"). by repeat split.
Defined.

(** The target timing out on [XRANGE]. *)
Lemma timeout_is_mismatch :
  snd (StreamReplication.compare_streams slow_target "test:stream:basic")
  = Return false.
Proof.
  apply (StreamReplicationEdges.compare_streams_read_error slow_target
           "test:stream:basic" (Exn TimeoutError "Timeout reading from socket")).
  - reflexivity.
  - right. eexists. split; [reflexivity|]. right. eexists.
    split; [reflexivity|]. split; [reflexivity|]. right. eexists.
    split; reflexivity.
Defined.

(** The connection dropped on [XTRIM ... MINID]. *)
Lemma dropped_connection_fails_minid :
  snd (StreamReplication.test_trim_minid dropped_source)
  = Raised (Exn ConnectionError "Connection reset by peer")
  /\ StreamReplication.verdict (StreamReplication.test_trim_minid dropped_source)
     = false.
Proof.
  destruct (StreamReplicationEdges.test_trim_minid_otherwise dropped_source)
    as [_ Hraises].
  - intros i _. eexists. reflexivity.
  - apply Hraises; [reflexivity|discriminate].
Defined.

(** The suite against two stores in step. *)
Lemma in_sync_suite_leaves_target :
  Forall (fun ev => StreamReplication.leaves_target_data ev = true)
         (fst (StreamReplication.run_all_tests in_sync)).
Proof.
  apply (StreamReplicationEdges.suite_leaves_target_data in_sync); reflexivity.
Defined.

End EdgeScenarios.
